(** * GL and bank statement categorization: a shallow embedding

    The repository holds two Streamlit scripts, [gl_bank_agentic_model.py]
    and [GL_BANK_LANGCHAIN.py], which carry the same categorization engine:
    [normalize_text], [categorize_gl], [categorize_bank], [find_col] and the
    aggregation into a summary table.  This file embeds that engine and
    proves properties of it.

    Data model.
    - Python [str] is [string].  The embedding is exact for ASCII text: the
      case mappings act on the letters a..z / A..Z, and the whitespace class
      is the one [str.isspace] and the regular expression class [\s] share
      below code point 128 (9..13, 28..31 and 32).  Codes from 128 upwards
      are passed through unchanged by every operation.
    - A cell of a pandas row is a [value]: text, or one of the non-text
      objects a table can hold, each with its [str()] rendering.
    - A row ([dict]-like, read with [row.get(key, default)]) is a
      [gmap string value].  *)

From Stdlib Require Import ZArith NArith Bool List Ascii String DecimalString Sorted Lia.
From Stdlib Require OrderedTypeEx.
From stdpp Require Import base option gmap strings.
Import ListNotations.

Local Open Scope bool_scope.
Local Open Scope string_scope.

(** ** Python string primitives *)

Module Py.

Definition code (c : ascii) : N := N_of_ascii c.

(** [str.isspace] on one character, which is also what [\s] matches. *)
Definition isspace (c : ascii) : bool :=
  let n := code c in
  ((9 <=? n) && (n <=? 13) || (28 <=? n) && (n <=? 32))%N.

Definition upper_char (c : ascii) : ascii :=
  let n := code c in
  if ((97 <=? n) && (n <=? 122))%N then ascii_of_N (n - 32) else c.

Definition lower_char (c : ascii) : ascii :=
  let n := code c in
  if ((65 <=? n) && (n <=? 90))%N then ascii_of_N (n + 32) else c.

Fixpoint smap (f : ascii -> ascii) (s : string) : string :=
  match s with
  | EmptyString => EmptyString
  | String c s' => String (f c) (smap f s')
  end.

(** [s.upper()] and [s.lower()] *)
Definition upper (s : string) : string := smap upper_char s.
Definition lower (s : string) : string := smap lower_char s.

(** [s.startswith(p)] *)
Fixpoint startswith (s p : string) : bool :=
  match p, s with
  | EmptyString, _ => true
  | String _ _, EmptyString => false
  | String a p', String b s' => Ascii.eqb a b && startswith s' p'
  end.

(** [k in s] for two strings: [k] occurs in [s] as a substring. *)
Fixpoint contains (k s : string) : bool :=
  startswith s k ||
  match s with
  | EmptyString => false
  | String _ s' => contains k s'
  end.

(** [s.replace(' ', '')] *)
Fixpoint remove_spaces (s : string) : string :=
  match s with
  | EmptyString => EmptyString
  | String c s' =>
      if Ascii.eqb c " " then remove_spaces s' else String c (remove_spaces s')
  end.

(** [re.sub(r'\s+', ' ', s)]: every maximal run of whitespace becomes one
    space.  [in_run] tells that the previous character was whitespace, so
    that the run has already been replaced. *)
Fixpoint sub_ws (in_run : bool) (s : string) : string :=
  match s with
  | EmptyString => EmptyString
  | String c s' =>
      if isspace c
      then if in_run then sub_ws true s' else String " " (sub_ws true s')
      else String c (sub_ws false s')
  end.

Fixpoint lstrip (s : string) : string :=
  match s with
  | EmptyString => EmptyString
  | String c s' => if isspace c then lstrip s' else s
  end.

Fixpoint rstrip (s : string) : string :=
  match s with
  | EmptyString => EmptyString
  | String c s' =>
      match rstrip s' with
      | EmptyString => if isspace c then EmptyString else String c EmptyString
      | r => String c r
      end
  end.

(** [s.strip()] *)
Definition strip (s : string) : string := rstrip (lstrip s).

(** [s == t] on strings *)
Definition str_eq (s t : string) : bool := String.eqb s t.

(** [' '.join(ws)] *)
Definition join_space (ws : list string) : string := String.concat " " ws.

(** [s.split()]: the maximal runs of characters that are not whitespace. *)
Fixpoint split (s : string) : list string :=
  match s with
  | EmptyString => []
  | String c s' =>
      if isspace c then split s'
      else
        match s' with
        | EmptyString => [String c EmptyString]
        | String d _ =>
            if isspace d then String c EmptyString :: split s'
            else
              match split s' with
              | w :: ws => String c w :: ws
              | [] => [String c EmptyString]
              end
        end
  end.

Definition hex_digit (n : N) : ascii :=
  if (n <? 10)%N then ascii_of_N (48 + n) else ascii_of_N (87 + n).

Definition dquote : ascii := ascii_of_N 34.
Definition squote : ascii := "'"%char.
Definition backslash : ascii := ascii_of_N 92.

Fixpoint has_char (q : ascii) (s : string) : bool :=
  match s with
  | EmptyString => false
  | String c s' => Ascii.eqb c q || has_char q s'
  end.

(** [repr(s)] for a string: single quotes unless the text holds a single
    quote and no double quote; the quote and the backslash are escaped,
    tab, newline and carriage return get their letters, the other control
    characters their two hexadecimal digits. *)
Definition repr_quote (s : string) : ascii :=
  if has_char squote s && negb (has_char dquote s) then dquote else squote.

Definition repr_char (quote c : ascii) : string :=
  let n := code c in
  if Ascii.eqb c quote || Ascii.eqb c backslash then String backslash (String c EmptyString)
  else if (n =? 9)%N then String backslash "t"
  else if (n =? 10)%N then String backslash "n"
  else if (n =? 13)%N then String backslash "r"
  else if ((n <? 32) || (n =? 127))%N
       then String backslash (String "x" (String (hex_digit (n / 16)) (String (hex_digit (n mod 16)) EmptyString)))
  else String c EmptyString.

Fixpoint repr_body (quote : ascii) (s : string) : string :=
  match s with
  | EmptyString => String quote EmptyString
  | String c s' => String.append (repr_char quote c) (repr_body quote s')
  end.

Definition repr (s : string) : string :=
  let q := repr_quote s in String q (repr_body q s).

(** [str(l)] for a list of strings, as an f-string renders it. *)
Definition str_list (l : list string) : string :=
  String.append "[" (String.append (String.concat ", " (map repr l)) "]").

End Py.

(** ** Cells and rows *)

Inductive value : Type :=
| VStr (s : string)          (* a [str] *)
| VNone                      (* [None] *)
| VNaN                       (* [float('nan')], the missing cell of pandas *)
| VInt (z : Z)               (* an [int] *)
| VBool (b : bool)           (* a [bool] *)
| VOther (rendering : string). (* any other object, given by its [str()] *)

(** [isinstance(v, str)] *)
Definition is_str (v : value) : bool :=
  match v with VStr _ => true | _ => false end.

(** [str(v)] *)
Definition py_str (v : value) : string :=
  match v with
  | VStr s => s
  | VNone => "None"
  | VNaN => "nan"
  | VInt z => NilZero.string_of_int (Z.to_int z)
  | VBool true => "True"
  | VBool false => "False"
  | VOther r => r
  end.

(** [row.get(key, default)] *)
Definition row_get (row : gmap string value) (key : string) (dflt : value) : value :=
  default dflt (row !! key).

(** ** The categorization functions *)

(** [normalize_text] is the same in both files. *)
Definition normalize_text (s : value) : string :=
  match s with
  | VStr s =>
      let s := Py.upper s in
      let s := Py.sub_ws false s in
      Py.strip s
  | _ => EmptyString
  end.

Definition nc_keywords : list string :=
  ["INDN:SETT-BATCH"; "3351637714"; "CO ID:3351637714"; "CCD"].

Definition keywords_119 : list string :=
  [ "BNF:HERFF JONES LLC 4501 WEST 62ND STREET INDIANAPOLIS";
    "BNF BK:PNC BANK NATIONAL";
    "24295001305";
    "HERFF JONES LLC OPERATING ACCOUNT 4501";
    "JPMORGAN CHASE";
    "SND BK:WELLS FARGO BANK";
    "WELLS FARGO SWEEP";
    "24354001505";
    "JPMORGAN CHASE BANK" ].

Definition ap_words : list string :=
  ["CORP PMT"; "VARSITY"; "GOODS"; "INV"; "INTL OUT DATE:"; "POP"; "BALBOA"; "VISION GEMS"].

(** [categorize_bank] is the same in both files. *)
Definition categorize_bank (row : gmap string value) (col_text col_type : string) : string :=
  let raw_text := row_get row col_text (VStr EmptyString) in
  let raw_type := row_get row col_type (VStr EmptyString) in
  let T := normalize_text raw_text in
  let I := normalize_text raw_type in
  if forallb (fun k => Py.contains k T) nc_keywords then "NC Bank"
  else if existsb (fun k => Py.contains k T) keywords_119 then "119"
  else if Py.contains "TRSF" T || Py.contains "CUR" T then "117"
  else if Py.contains "BNF:LSC COMMUNICATIONS" T then "153"
  else if (Py.str_eq I "DETAIL DEBITS" && existsb (fun w => Py.contains w T) ap_words)
          || (Py.startswith T "WIRE TYPE" && Py.contains "INV" T)
          || (Py.contains "ACH DETAIL RETURN CO ID:5351637714 CCD" T
              && Py.str_eq I "DETAIL CREDITS")
  then "AP"
  else if (Py.contains "TAX " T || Py.contains "TAXPAY" T) && Py.str_eq I "DETAIL DEBITS"
  then "TAX"
  else "UNMATCHED".

(** [find_col] is the same in both files; the column labels are text, so
    that [str(c)] is [c]. *)
Fixpoint find_col (columns : list string) (key : string) : option string :=
  let kl := Py.lower (Py.remove_spaces key) in
  match columns with
  | [] => None
  | c :: columns' =>
      let cl := Py.lower (Py.remove_spaces (py_str (VStr c))) in
      if Py.contains kl cl then Some c else find_col columns' key
  end.

(** ** Tables and the aggregation *)

(** A data frame: its column labels and its rows. *)
Record table : Type := { columns : list string; rows : list (gmap string value) }.

(** [df['Remark'] = df.apply(f, axis=1)] *)
Definition assign_remark (f : gmap string value -> string) (df : table) : table :=
  {| columns := if existsb (String.eqb "Remark") (columns df)
                then columns df else (columns df ++ ["Remark"])%list;
     rows := map (fun r => <["Remark" := VStr (f r)]> r) (rows df) |}.

(** The truth value of [c] in [if not c], for [c] a text or [None]: the
    found column when it is a non-empty text. *)
Definition truthy (c : option string) : option string :=
  match c with
  | Some EmptyString => None
  | Some s => Some s
  | None => None
  end.

(** The group key of a row under [groupby('Remark')]; the cell is text in
    every labeled table. *)
Definition remark (r : gmap string value) : option string :=
  match r !! "Remark" with
  | Some (VStr s) => Some s
  | _ => None
  end.

Record summary_row (A : Type) : Type :=
  { Category : string; GL : A; Bank_Statement : A }.
Arguments Category {A} _.
Arguments GL {A} _.
Arguments Bank_Statement {A} _.

(** How a run of the script ends. *)
Inductive outcome (A : Type) : Type :=
| Stopped (gl_df bank_df : table) (error : string)
    (* [st.error(...)] then [st.stop()] *)
| Raised (exn : string)
    (* an exception nothing catches *)
| Completed (gl_df bank_df : table) (summary_df : list (summary_row A)).
Arguments Stopped {A} _ _ _.
Arguments Raised {A} _.
Arguments Completed {A} _ _ _.

Definition summary_of {A : Type} (o : outcome A) : option (list (summary_row A)) :=
  match o with
  | Completed _ _ s => Some s
  | _ => None
  end.

Section Aggregation.

(** Amounts: the numeric type of the amount columns with its zero and sum,
    and the number pandas reads in a cell. *)
Context {A : Type}.
Variable zero : A.
Variable add : A -> A -> A.
Variable amount_of : value -> A.

(** One more amount [a] under key [k], in a series kept in key order. *)
Fixpoint group_add (k : string) (a : A) (acc : list (string * A)) : list (string * A) :=
  match acc with
  | [] => [(k, add zero a)]
  | (k', s) :: rest =>
      match String.compare k k' with
      | Eq => (k', add s a) :: rest
      | Lt => (k, add zero a) :: acc
      | Gt => (k', s) :: group_add k a rest
      end
  end.

(** [df.groupby('Remark')[col].sum()]: one entry per key, keys sorted. *)
Definition groupby_sum (col : string) (df : table) : list (string * A) :=
  fold_left
    (fun acc r =>
       match remark r with
       | Some k => group_add k (amount_of (row_get r col VNaN)) acc
       | None => acc
       end)
    (rows df) [].

Fixpoint series_get (k : string) (s : list (string * A)) : option A :=
  match s with
  | [] => None
  | (k', a) :: s' => if String.eqb k k' then Some a else series_get k s'
  end.

Definition in_index (k : string) (s : list (string * A)) : bool :=
  existsb (String.eqb k) (map fst s).

(** [pd.concat([gl_sum, bank_sum], axis=1).fillna(0).reset_index()]: the
    outer join of the two series on their keys (the keys of the first, then
    the keys only the second has), a missing entry filled with 0. *)
Definition concat_fillna (gl_sum bank_sum : list (string * A)) : list (summary_row A) :=
  let index :=
    (map fst gl_sum ++ List.filter (fun k => negb (in_index k gl_sum)) (map fst bank_sum))%list in
  map (fun k =>
         {| Category := k;
            GL := default zero (series_get k gl_sum);
            Bank_Statement := default zero (series_get k bank_sum) |})
      index.

(** The two scripts differ in the GL classifier and in the text of the
    error. *)
Variable categorize_gl : gmap string value -> string.
Variable error_text : string.

(** The body of the script once both files are uploaded, from the labeling
    of the GL table to the summary: the GL rows are labeled first, the three
    bank columns are looked up, and a column that is not found ends the run
    on [st.error] and [st.stop()] before the bank rows are labeled.
    [gl_df.groupby('Remark')['Foreign Amount']] raises when the GL table has
    no such column. *)
Definition process (gl_df bank_df : table) : outcome A :=
  let gl_df := assign_remark categorize_gl gl_df in
  let col_text := find_col (columns bank_df) "Text" in
  let col_type := find_col (columns bank_df) "Data Type" in
  let col_revsd_amt := find_col (columns bank_df) "Revsd amt" in
  match truthy col_text, truthy col_type, truthy col_revsd_amt with
  | Some col_text, Some col_type, Some col_revsd_amt =>
      let bank_df := assign_remark (fun r => categorize_bank r col_text col_type) bank_df in
      if existsb (String.eqb "Foreign Amount") (columns gl_df) then
        let gl_sum := groupby_sum "Foreign Amount" gl_df in
        let bank_sum := groupby_sum col_revsd_amt bank_df in
        Completed gl_df bank_df (concat_fillna gl_sum bank_sum)
      else Raised "KeyError"
  | _, _, _ =>
      Stopped gl_df bank_df (String.append error_text (Py.str_list (columns bank_df)))
  end.

End Aggregation.

(** [gl_bank_agentic_model.py] *)
Module Agentic.

Definition categorize_gl (row : gmap string value) : string :=
  let source := Py.upper (py_str (row_get row "Source" (VStr EmptyString))) in
  let desc := Py.upper (py_str (row_get row "Journal Line Description" (VStr EmptyString))) in
  if Py.contains "117" desc then "117"
  else if Py.contains "153" desc then "153"
  else if Py.contains "119" desc then "119"
  else if Py.contains "NC BANK" desc then "NC Bank"
  else if Py.contains "AP" source then "AP"
  else if Py.contains "H11" source then "TAX"
  else "UNMATCHED".

Definition error_text : string :=
  "Could not detect needed columns in Bank file. Columns found: ".

Definition process {A : Type} (zero : A) (add : A -> A -> A) (amount_of : value -> A)
  : table -> table -> outcome A :=
  process zero add amount_of categorize_gl error_text.

(** The detail view of the category picked in the select box:
    [df[df['Remark'] == selected_cat]]. *)
Definition detail_view (selected_cat : string) (df : table) : table :=
  {| columns := columns df;
     rows := List.filter
               (fun r => match remark r with
                         | Some s => Py.str_eq s selected_cat
                         | None => false
                         end)
               (rows df) |}.

(** The options of the select box: [summary_df['Category']], the summary
    having no column [Remark] after the renaming. *)
Definition detail_options {A : Type} (summary_df : list (summary_row A)) : list string :=
  map Category summary_df.




End Agentic.

(** [GL_BANK_LANGCHAIN.py] *)
Module LangChain.

Definition categorize_gl (row : gmap string value) : string :=
  let source := Py.upper (py_str (row_get row "Source" (VStr EmptyString))) in
  let desc := Py.upper (py_str (row_get row "Journal Line Description" (VStr EmptyString))) in
  if Py.contains "117" desc then "117"
  else if Py.contains "153" desc then "153"
  else if Py.contains "119" desc then "119"
  else if Py.contains "NC BANK" desc then "NC Bank"
  else if Py.contains "AP" source then "AP"
  else if Py.contains "H11" source || Py.contains "TAX" source then "TAX"
  else "UNMATCHED".

Definition error_text : string :=
  "Bank file missing required columns! Found: ".

Definition process {A : Type} (zero : A) (add : A -> A -> A) (amount_of : value -> A)
  : table -> table -> outcome A :=
  process zero add amount_of categorize_gl error_text.

End LangChain.

(** ** The contracts of the specification *)

Module Contract.

(** The seven category labels. *)
Definition labels : list string :=
  ["117"; "119"; "153"; "NC Bank"; "AP"; "TAX"; "UNMATCHED"].

(** The normalizer: the text in upper case, its words kept in order and
    separated by one space each, so that every run of whitespace inside is
    one space and there is none at either end. *)
Definition normalize (s : string) : string :=
  Py.join_space (Py.split (Py.upper s)).

(** A rule: a predicate on two texts and the label it gives. *)
Definition rule : Type := (string -> string -> bool) * string.

(** First match wins; [UNMATCHED] when no rule matches. *)
Fixpoint first_match (rules : list rule) (x y : string) : string :=
  match rules with
  | [] => "UNMATCHED"
  | (p, l) :: rules' => if p x y then l else first_match rules' x y
  end.

Definition silent (rules : list rule) (x y : string) : bool :=
  forallb (fun r => negb (fst r x y)) rules.

(** The bank rules on the normalized text [T] and type [I]. *)
Definition bank_nc (T I : string) : bool :=
  forallb (fun k => Py.contains k T)
          ["INDN:SETT-BATCH"; "3351637714"; "CO ID:3351637714"; "CCD"].

Definition bank_119 (T I : string) : bool :=
  existsb (fun k => Py.contains k T)
          [ "BNF:HERFF JONES LLC 4501 WEST 62ND STREET INDIANAPOLIS";
            "BNF BK:PNC BANK NATIONAL"; "24295001305";
            "HERFF JONES LLC OPERATING ACCOUNT 4501"; "JPMORGAN CHASE";
            "SND BK:WELLS FARGO BANK"; "WELLS FARGO SWEEP"; "24354001505";
            "JPMORGAN CHASE BANK" ].

Definition bank_117 (T I : string) : bool :=
  Py.contains "TRSF" T || Py.contains "CUR" T.

Definition bank_153 (T I : string) : bool :=
  Py.contains "BNF:LSC COMMUNICATIONS" T.

Definition bank_ap (T I : string) : bool :=
  (String.eqb I "DETAIL DEBITS"
   && existsb (fun w => Py.contains w T)
              ["CORP PMT"; "VARSITY"; "GOODS"; "INV"; "INTL OUT DATE:"; "POP";
               "BALBOA"; "VISION GEMS"])
  || (Py.startswith T "WIRE TYPE" && Py.contains "INV" T)
  || (Py.contains "ACH DETAIL RETURN CO ID:5351637714 CCD" T
      && String.eqb I "DETAIL CREDITS").

Definition bank_tax (T I : string) : bool :=
  (Py.contains "TAX " T || Py.contains "TAXPAY" T) && String.eqb I "DETAIL DEBITS".

Definition bank_rules_1_5 : list rule :=
  [ (bank_nc, "NC Bank"); (bank_119, "119"); (bank_117, "117");
    (bank_153, "153"); (bank_ap, "AP") ].

Definition bank_rules : list rule :=
  (bank_rules_1_5 ++ [ (bank_tax, "TAX") ])%list.

(** The GL rules on the upper-cased description and source; rule 6 has its
    keyword set as a parameter. *)
Definition gl_rules_1_5 : list rule :=
  [ (fun desc source => Py.contains "117" desc, "117");
    (fun desc source => Py.contains "153" desc, "153");
    (fun desc source => Py.contains "119" desc, "119");
    (fun desc source => Py.contains "NC BANK" desc, "NC Bank");
    (fun desc source => Py.contains "AP" source, "AP") ].

Definition gl_rules (rule6 : list string) : list rule :=
  (gl_rules_1_5
   ++ [ (fun desc source => existsb (fun k => Py.contains k source) rule6, "TAX") ])%list.

End Contract.

(** The two texts a GL row is classified on. *)
Definition gl_source (row : gmap string value) : string :=
  Py.upper (py_str (row_get row "Source" (VStr EmptyString))).

Definition gl_desc (row : gmap string value) : string :=
  Py.upper (py_str (row_get row "Journal Line Description" (VStr EmptyString))).

(** The two texts a bank row is classified on. *)
Definition bank_T (row : gmap string value) (col_text : string) : string :=
  normalize_text (row_get row col_text (VStr EmptyString)).

Definition bank_I (row : gmap string value) (col_type : string) : string :=
  normalize_text (row_get row col_type (VStr EmptyString)).

(** A cell that is absent or holds no text. *)
Definition no_text (row : gmap string value) (col : string) : Prop :=
  match row !! col with
  | Some v => is_str v = false
  | None => True
  end.

(** A word: not empty, no whitespace in it. *)
Inductive word : string -> Prop :=
| word_one c : Py.isspace c = false -> word (String c EmptyString)
| word_more c w : Py.isspace c = false -> word w -> word (String c w).

(** ** Sample rows *)

Definition bank_row (text type : value) : gmap string value :=
  <["Text" := text]> (<["Data Type" := type]> ∅).

Definition gl_row (source desc : value) : gmap string value :=
  <["Source" := source]> (<["Journal Line Description" := desc]> ∅).

(** Scenario 1 of the specification. *)
Definition scenario1 : gmap string value :=
  gl_row (VStr "AP-SYS") (VStr "payment batch 117 adj").

(** Scenario 4 of the specification, with its two data types. *)
Definition scenario4_debits : gmap string value :=
  bank_row (VStr "TAXPAY Q3 ESTIMATE") (VStr "Detail Debits").

Definition scenario4_credits : gmap string value :=
  bank_row (VStr "TAXPAY Q3 ESTIMATE") (VStr "Detail Credits").

(** A bank row with the four NC Bank keywords and an AP word, on a debit. *)
Definition nc_and_ap_row : gmap string value :=
  bank_row (VStr "indn:sett-batch co id:3351637714 ccd inv 77") (VStr "Detail Debits").

(** GL rows whose source holds TAX and not H11. *)
Definition tax_source_row : gmap string value :=
  gl_row (VStr "TAX") (VStr "misc").

Definition tax_source_117_row : gmap string value :=
  gl_row (VStr "TAX") (VStr "117").

(** A bank row with a missing text cell and no type cell at all. *)
Definition blank_row : gmap string value := <["Text" := VNaN]> ∅.

(** The order of the keys of a grouped series: the order of Python on
    strings, by code point. *)
Definition str_lt (a b : string) : Prop := String.compare a b = Lt.

(** A reading of amounts for the sample tables: whole numbers. *)
Definition amount_Z (v : value) : Z :=
  match v with
  | VInt z => z
  | _ => 0%Z
  end.

(** A GL table and two bank tables, the second without an amount column. *)
Definition sample_gl : table :=
  {| columns := ["Source"; "Journal Line Description"; "Foreign Amount"];
     rows :=
       [ <["Foreign Amount" := VInt 5]> scenario1;
         <["Foreign Amount" := VInt 7]> (gl_row (VStr "ap") (VStr "x"));
         <["Foreign Amount" := VInt 10]> (gl_row (VStr "AP-SYS") (VStr "117")) ] |}.

Definition sample_bank : table :=
  {| columns := ["Text"; "Data Type"; "Revsd Amt"];
     rows :=
       [ <["Revsd Amt" := VInt 3]> scenario4_debits;
         <["Revsd Amt" := VInt 4]> (bank_row (VStr "trsf 12") (VStr "Detail Credits")) ] |}.

Definition bank_without_amount : table :=
  {| columns := ["Text"; "Data Type"];
     rows := [ scenario4_debits ] |}.

(** The summary of the two sample tables. *)
Definition sample_summary : list (summary_row Z) :=
  [ {| Category := "117"; GL := 15%Z; Bank_Statement := 4%Z |};
    {| Category := "AP"; GL := 7%Z; Bank_Statement := 0%Z |};
    {| Category := "TAX"; GL := 0%Z; Bank_Statement := 3%Z |} ].

(** ** Auxiliary notions for the further properties *)

(** The test of [find_col] on one column: the key occurs in the column
    name, both without spaces and in lower case. *)
Definition col_matches (key c : string) : bool :=
  Py.contains (Py.lower (Py.remove_spaces key)) (Py.lower (Py.remove_spaces c)).

(** A cell that is absent or holds [None], a missing value or the empty
    text. *)
Definition null_cell (row : gmap string value) (col : string) : Prop :=
  match row !! col with
  | None | Some VNone | Some VNaN | Some (VStr EmptyString) => True
  | _ => False
  end.

(** The sum of a column read in table order, the way a grouped sum adds
    one amount after the other. *)
Definition column_sum {A : Type} (zero : A) (add : A -> A -> A)
    (amount_of : value -> A) (col : string) (df : table) : A :=
  fold_left add (map (fun r => amount_of (row_get r col VNaN)) (rows df)) zero.

(** One of the three bank columns is not found. *)
Definition unresolved (bank_df : table) : Prop :=
  find_col (columns bank_df) "Text" = None
  \/ find_col (columns bank_df) "Data Type" = None
  \/ find_col (columns bank_df) "Revsd amt" = None.


(** A text made of whitespace only (the empty text too). *)
Fixpoint whitespace_only (s : string) : bool :=
  match s with
  | EmptyString => true
  | String c s' => Py.isspace c && whitespace_only s'
  end.

(** A cell without a word in it: absent, not text, or whitespace only. *)
Definition blank_cell (row : gmap string value) (col : string) : Prop :=
  match row !! col with
  | Some (VStr s) => whitespace_only s = true
  | _ => True
  end.

(** A bank row whose text is spaces and a tab, on a debit. *)
Definition spaces_row : gmap string value :=
  bank_row (VStr (String " " (String "009" " "))) (VStr "Detail Debits").

(** A GL row without a source and with a missing description. *)
Definition null_gl_row : gmap string value := gl_row VNone VNaN.

(** * Properties *)

(** ** Characters and strings *)

Lemma isspace_upper_char c : Py.isspace (Py.upper_char c) = Py.isspace c.
Proof. destruct c as [[] [] [] [] [] [] [] []]; reflexivity. Qed.

Lemma upper_char_idem c : Py.upper_char (Py.upper_char c) = Py.upper_char c.
Proof. destruct c as [[] [] [] [] [] [] [] []]; reflexivity. Qed.

Lemma smap_smap f g s : Py.smap f (Py.smap g s) = Py.smap (fun c => f (g c)) s.
Proof. induction s as [|c s IH]; simpl; [reflexivity | now rewrite IH]. Qed.

Lemma smap_ext f g s : (forall c, f c = g c) -> Py.smap f s = Py.smap g s.
Proof. intros E. induction s as [|c s IH]; simpl; [reflexivity | now rewrite E, IH]. Qed.

Lemma upper_idem s : Py.upper (Py.upper s) = Py.upper s.
Proof. unfold Py.upper. rewrite smap_smap. apply smap_ext, upper_char_idem. Qed.

Lemma smap_append f s t :
  Py.smap f (String.append s t) = String.append (Py.smap f s) (Py.smap f t).
Proof. induction s as [|c s IH]; simpl; [reflexivity | now rewrite IH]. Qed.

Lemma append_cons c s t : String.append (String c s) t = String c (String.append s t).
Proof. reflexivity. Qed.

Lemma append_nil t : String.append EmptyString t = t.
Proof. reflexivity. Qed.

(** *** Words *)

Lemma split_words s : Forall word (Py.split s).
Proof.
  induction s as [|c s IH]; simpl; [constructor|].
  destruct (Py.isspace c) eqn:Hc; [exact IH|].
  destruct s as [|d s']; [repeat constructor; exact Hc|].
  destruct (Py.isspace d) eqn:Hd.
  - constructor; [constructor; exact Hc | exact IH].
  - destruct (Py.split (String d s')) as [|w ws]; [repeat constructor; exact Hc|].
    inversion IH; subst. constructor; [constructor; assumption | assumption].
Qed.

Lemma join_cons2 w w' ws :
  Py.join_space (w :: w' :: ws)
  = String.append w (String " " (Py.join_space (w' :: ws))).
Proof. reflexivity. Qed.

Lemma join_head_word w ws :
  word w -> exists c r, Py.join_space (w :: ws) = String c r /\ Py.isspace c = false.
Proof.
  intros Hw. destruct ws as [|w' ws].
  - destruct Hw; simpl; eauto.
  - rewrite join_cons2. destruct Hw; rewrite append_cons; eauto.
Qed.

(** Splitting the text of a word followed by a space and more text. *)
Lemma split_word_then w rest :
  word w -> Py.split (String.append w (String " " rest)) = w :: Py.split rest.
Proof.
  induction 1 as [c Hc | c w Hc Hw IH].
  - rewrite append_cons, append_nil. simpl. rewrite Hc. reflexivity.
  - rewrite append_cons. cbn [Py.split]. rewrite Hc, IH.
    destruct Hw as [d Hd | d w' Hd Hw']; rewrite append_cons, Hd; reflexivity.
Qed.

Lemma split_word w : word w -> Py.split w = [w].
Proof.
  induction 1 as [c Hc | c w Hc Hw IH].
  - simpl. now rewrite Hc.
  - cbn [Py.split]. rewrite Hc.
    destruct Hw as [d Hd | d w' Hd Hw']; rewrite Hd, IH; reflexivity.
Qed.

(** Joining words and splitting again gives the words back. *)
Lemma split_join ws : Forall word ws -> Py.split (Py.join_space ws) = ws.
Proof.
  induction 1 as [|w ws Hw Hws IH]; [reflexivity|].
  destruct ws as [|w' ws]; [now apply split_word|].
  rewrite join_cons2, split_word_then by assumption. now rewrite IH.
Qed.

Lemma split_smap f s :
  (forall c, Py.isspace (f c) = Py.isspace c) ->
  Py.split (Py.smap f s) = map (Py.smap f) (Py.split s).
Proof.
  intros Hf. induction s as [|c s IH]; [reflexivity|].
  cbn [Py.smap Py.split]. rewrite Hf.
  destruct (Py.isspace c); [exact IH|].
  destruct s as [|d s']; [reflexivity|].
  cbn [Py.smap] in *. rewrite Hf.
  destruct (Py.isspace d); [now rewrite IH|].
  rewrite IH. destruct (Py.split (String d s')); reflexivity.
Qed.

Lemma smap_join f ws :
  f " "%char = " "%char ->
  Py.smap f (Py.join_space ws) = Py.join_space (map (Py.smap f) ws).
Proof.
  intros Hf. induction ws as [|w ws IH]; [reflexivity|].
  destruct ws as [|w' ws]; [reflexivity|].
  rewrite join_cons2. change (map (Py.smap f) (w :: w' :: ws))
    with (Py.smap f w :: Py.smap f w' :: map (Py.smap f) ws).
  rewrite join_cons2, smap_append. cbn [Py.smap]. rewrite Hf, IH. reflexivity.
Qed.

(** *** Collapsing and trimming *)

Lemma sub_ws_true_head t :
  match Py.sub_ws true t with
  | String c _ => Py.isspace c = false
  | EmptyString => True
  end.
Proof.
  induction t as [|c t IH]; simpl; [exact I|].
  destruct (Py.isspace c) eqn:Hc; [exact IH | exact Hc].
Qed.

Lemma lstrip_sub_ws t : Py.lstrip (Py.sub_ws false t) = Py.sub_ws true t.
Proof.
  destruct t as [|c t]; [reflexivity|]. simpl.
  destruct (Py.isspace c) eqn:Hc; simpl.
  - pose proof (sub_ws_true_head t) as H.
    destruct (Py.sub_ws true t) as [|d r]; [reflexivity|]. simpl. now rewrite H.
  - now rewrite Hc.
Qed.

Lemma rstrip_cons c x :
  Py.rstrip (String c x)
  = match Py.rstrip x with
    | EmptyString => if Py.isspace c then EmptyString else String c EmptyString
    | r => String c r
    end.
Proof. reflexivity. Qed.

(** What is left of the collapsed text once its end is trimmed, with and
    without a run of whitespace just before it. *)
Lemma rstrip_sub_ws t :
  Py.rstrip (Py.sub_ws true t) = Py.join_space (Py.split t)
  /\ Py.rstrip (Py.sub_ws false t)
     = match t with
       | EmptyString => EmptyString
       | String c _ =>
           if Py.isspace c
           then match Py.split t with
                | [] => EmptyString
                | ws => String " " (Py.join_space ws)
                end
           else Py.join_space (Py.split t)
       end.
Proof.
  induction t as [|c t [IH1 IH2]]; [split; reflexivity|].
  cbn [Py.sub_ws Py.split].
  destruct (Py.isspace c) eqn:Hc.
  - split; [exact IH1|].
    rewrite rstrip_cons, IH1.
    pose proof (split_words t) as Hw.
    destruct (Py.split t) as [|w ws]; [reflexivity|].
    inversion Hw; subst.
    destruct (join_head_word w ws) as (d & r & E & _); [assumption|].
    rewrite E. reflexivity.
  - assert (G : Py.rstrip (String c (Py.sub_ws false t))
                = Py.join_space
                    match t with
                    | EmptyString => [String c EmptyString]
                    | String d _ =>
                        if Py.isspace d then String c EmptyString :: Py.split t
                        else match Py.split t with
                             | [] => [String c EmptyString]
                             | w :: ws => String c w :: ws
                             end
                    end); [|split; exact G].
    rewrite rstrip_cons, IH2.
    destruct t as [|d t']; [now rewrite Hc|].
    pose proof (split_words (String d t')) as Hw.
    destruct (Py.isspace d) eqn:Hd.
    + destruct (Py.split (String d t')) as [|w ws]; [now rewrite Hc|].
      rewrite (join_cons2 (String c EmptyString) w ws), append_cons, append_nil.
      reflexivity.
    + destruct (Py.split (String d t')) as [|w ws] eqn:E.
      * exfalso. revert E. cbn [Py.split]. rewrite Hd.
        destruct t' as [|e t'']; [discriminate|].
        destruct (Py.isspace e); [discriminate|].
        destruct (Py.split (String e t'')); discriminate.
      * inversion Hw as [|? ? Hw1 _]; subst.
        destruct (join_head_word w ws Hw1) as (a & r & Ej & _). rewrite Ej.
        destruct ws as [|w' ws]; [cbn in Ej |- *; now rewrite Ej|].
        rewrite <- Ej, (join_cons2 (String c w) w' ws), (join_cons2 w w' ws).
        now rewrite append_cons.
Qed.

(** The three steps of [normalize_text] on a text give its words, joined. *)
Lemma strip_sub_ws t : Py.strip (Py.sub_ws false t) = Py.join_space (Py.split t).
Proof. unfold Py.strip. rewrite lstrip_sub_ws. apply rstrip_sub_ws. Qed.

Lemma Forall_word_upper ws : Forall word ws -> Forall word (map Py.upper ws).
Proof.
  induction 1 as [|w ws Hw _ IH]; constructor; [|exact IH].
  induction Hw as [c Hc | c w Hc Hw IHw]; cbn.
  - constructor. now rewrite isspace_upper_char.
  - constructor; [now rewrite isspace_upper_char | exact IHw].
Qed.

(** ** The normalizer *)

Lemma normalize_text_words s : normalize_text (VStr s) = Contract.normalize s.
Proof. unfold normalize_text, Contract.normalize. apply strip_sub_ws. Qed.

(** C8. [normalize_text] is total (it is a function on every cell value):
    a cell that is not text gives the empty text, and a text gives the
    contract's result: upper case, each run of whitespace one space, none
    at either end. *)
Theorem normalize_text_contract :
  forall v : value,
    normalize_text v
    = match v with
      | VStr s => Contract.normalize s
      | _ => EmptyString
      end.
Proof.
  intros [s| | | | |]; try reflexivity. apply normalize_text_words.
Qed.

Example normalize_text_sample :
  normalize_text (VStr (String "009" "  Wire   type" +:+ String "010" " inv 7 "))
  = "WIRE TYPE INV 7"
  /\ normalize_text (VInt 117) = EmptyString
  /\ normalize_text VNaN = EmptyString.
Proof. repeat split. Qed.

(** C9. [normalize_text] is idempotent on every cell value, text or not. *)
Theorem normalize_text_idempotent :
  forall v : value, normalize_text (VStr (normalize_text v)) = normalize_text v.
Proof.
  intros v. rewrite normalize_text_words.
  destruct v as [s| | | | |]; try reflexivity.
  rewrite normalize_text_words.
  unfold Contract.normalize, Py.upper.
  rewrite smap_join by reflexivity.
  rewrite split_join.
  - rewrite (split_smap Py.upper_char s isspace_upper_char), map_map.
    f_equal. apply map_ext. intros w. apply upper_idem.
  - apply Forall_word_upper, split_words.
Qed.

(** ** Rule chains *)

Section FirstMatch.

Variables (x y : string).

Lemma first_match_app_silent pre rules :
  Contract.silent pre x y = true ->
  Contract.first_match (pre ++ rules) x y = Contract.first_match rules x y.
Proof.
  induction pre as [|[q m] pre IH]; [reflexivity|].
  cbn [Contract.silent forallb fst app Contract.first_match].
  intros H. apply andb_prop in H as [Hq Hpre].
  destruct (q x y); [discriminate|]. apply IH, Hpre.
Qed.

(** The label of a rule that holds while no rule before it does. *)
Lemma first_match_label pre p l post :
  Contract.silent pre x y = true -> p x y = true ->
  Contract.first_match (pre ++ (p, l) :: post) x y = l.
Proof.
  intros Hpre Hp. rewrite first_match_app_silent by exact Hpre.
  cbn [Contract.first_match]. now rewrite Hp.
Qed.

Lemma first_match_silent rules :
  Contract.silent rules x y = true ->
  Contract.first_match rules x y = "UNMATCHED".
Proof.
  intros H. rewrite <- (app_nil_r rules).
  now rewrite first_match_app_silent.
Qed.

End FirstMatch.

Lemma categorize_bank_chain row col_text col_type :
  categorize_bank row col_text col_type
  = Contract.first_match Contract.bank_rules
      (bank_T row col_text) (bank_I row col_type).
Proof. reflexivity. Qed.

Lemma agentic_gl_chain row :
  Agentic.categorize_gl row
  = Contract.first_match (Contract.gl_rules ["H11"]) (gl_desc row) (gl_source row).
Proof.
  unfold Agentic.categorize_gl. fold (gl_desc row) (gl_source row).
  cbn. now rewrite orb_false_r.
Qed.

Lemma langchain_gl_chain row :
  LangChain.categorize_gl row
  = Contract.first_match (Contract.gl_rules ["H11"; "TAX"]) (gl_desc row) (gl_source row).
Proof.
  unfold LangChain.categorize_gl. fold (gl_desc row) (gl_source row).
  cbn. now rewrite orb_false_r.
Qed.

(** C1. [categorize_bank] gives the label of the first rule of the chain
    NC Bank, 119, 117, 153, AP, TAX that holds on the normalized text and
    type, and UNMATCHED when none holds; a row with the four NC Bank
    keywords is NC Bank whatever later rule it also satisfies. *)
Theorem categorize_bank_rule_order :
  forall (row : gmap string value) (col_text col_type : string),
    (forall pre p l post,
        Contract.bank_rules = (pre ++ (p, l) :: post)%list ->
        Contract.silent pre (bank_T row col_text) (bank_I row col_type) = true ->
        p (bank_T row col_text) (bank_I row col_type) = true ->
        categorize_bank row col_text col_type = l)
    /\ (Contract.silent Contract.bank_rules
          (bank_T row col_text) (bank_I row col_type) = true ->
        categorize_bank row col_text col_type = "UNMATCHED")
    /\ (forallb (fun k => Py.contains k (bank_T row col_text)) nc_keywords = true ->
        categorize_bank row col_text col_type = "NC Bank").
Proof.
  intros row col_text col_type. rewrite categorize_bank_chain.
  split; [|split].
  - intros pre p l post E Hpre Hp. rewrite E. now apply first_match_label.
  - apply first_match_silent.
  - intros H.
    apply (first_match_label _ _ [] Contract.bank_nc "NC Bank"); [reflexivity | exact H].
Qed.

Lemma categorize_bank_rule_order_witness :
  Contract.bank_ap (bank_T nc_and_ap_row "Text") (bank_I nc_and_ap_row "Data Type") = true
  /\ categorize_bank nc_and_ap_row "Text" "Data Type" = "NC Bank".
Proof.
  split; [vm_compute; reflexivity|].
  apply (categorize_bank_rule_order nc_and_ap_row "Text" "Data Type").
  vm_compute; reflexivity.
Defined.

(** C2. Both copies of [categorize_gl] upper-case the two fields and give
    the label of the first rule that holds, in the order 117, 153, 119,
    NC Bank (on the description), AP, then rule 6 (on the source), else
    UNMATCHED; the row of scenario 1 is labeled 117. *)
Theorem categorize_gl_rule_order :
  (forall row : gmap string value,
      Agentic.categorize_gl row
      = Contract.first_match (Contract.gl_rules ["H11"]) (gl_desc row) (gl_source row)
      /\ LangChain.categorize_gl row
         = Contract.first_match (Contract.gl_rules ["H11"; "TAX"])
             (gl_desc row) (gl_source row))
  /\ Py.contains "AP" (gl_source scenario1) = true
  /\ Agentic.categorize_gl scenario1 = "117"
  /\ LangChain.categorize_gl scenario1 = "117".
Proof.
  split; [|repeat split; vm_compute; reflexivity].
  intros row. split; [apply agentic_gl_chain | apply langchain_gl_chain].
Qed.

(** C3. On every row, whatever its cells hold (text, nothing, a missing
    value, a number, any other object), each classifier has a result, and
    the result is one of the seven labels. *)
Theorem classifiers_total :
  forall (row : gmap string value) (col_text col_type : string),
    In (Agentic.categorize_gl row) Contract.labels
    /\ In (LangChain.categorize_gl row) Contract.labels
    /\ In (categorize_bank row col_text col_type) Contract.labels.
Proof.
  intros row col_text col_type.
  unfold Agentic.categorize_gl, LangChain.categorize_gl, categorize_bank, Contract.labels.
  repeat split;
    repeat match goal with
           | |- context [if ?b then _ else _] => destruct b
           end; simpl; tauto.
Qed.

(** Scenarios 2 and 3 of the specification. *)
Example scenario2 :
  categorize_bank
    (bank_row (VStr "indn:sett-batch co id:3351637714 ccd misc 3351637714")
       (VStr "Detail Credits"))
    "Text" "Data Type"
  = "NC Bank".
Proof. vm_compute; reflexivity. Qed.

Example scenario3 :
  categorize_bank
    (bank_row (VStr "WIRE TYPE INTL INV#4471") (VStr "Detail Debits"))
    "Text" "Data Type"
  = "AP".
Proof. vm_compute; reflexivity. Qed.

(** ** The two copies of the GL classifier *)

(** The two copies differ on a row exactly when this holds: rules 1 to 5
    are silent and the source holds TAX and not H11. *)
Lemma gl_copies_cases row :
  Contract.silent Contract.gl_rules_1_5 (gl_desc row) (gl_source row) = true
  /\ Py.contains "TAX" (gl_source row) = true
  /\ Py.contains "H11" (gl_source row) = false
  /\ Agentic.categorize_gl row = "UNMATCHED"
  /\ LangChain.categorize_gl row = "TAX"
  \/ (Contract.silent Contract.gl_rules_1_5 (gl_desc row) (gl_source row)
        && Py.contains "TAX" (gl_source row)
        && negb (Py.contains "H11" (gl_source row)) = false)
     /\ Agentic.categorize_gl row = LangChain.categorize_gl row.
Proof.
  unfold Agentic.categorize_gl, LangChain.categorize_gl.
  fold (gl_desc row) (gl_source row).
  cbn [Contract.silent Contract.gl_rules_1_5 forallb fst].
  destruct (Py.contains "117" (gl_desc row)); [right; split; reflexivity|].
  destruct (Py.contains "153" (gl_desc row)); [right; split; reflexivity|].
  destruct (Py.contains "119" (gl_desc row)); [right; split; reflexivity|].
  destruct (Py.contains "NC BANK" (gl_desc row)); [right; split; reflexivity|].
  destruct (Py.contains "AP" (gl_source row)); [right; split; reflexivity|].
  destruct (Py.contains "H11" (gl_source row));
    [right; split; [cbn; apply andb_false_r | reflexivity]|].
  destruct (Py.contains "TAX" (gl_source row)).
  - left. repeat split; reflexivity.
  - right. split; reflexivity.
Qed.

(** C4, as the claim states it, fails: on [tax_source_117_row] the source
    holds TAX and not H11, and yet both copies give the same label. *)
Lemma gl_copies_agree_on_tax_source :
  ~ (Agentic.categorize_gl tax_source_117_row <> LangChain.categorize_gl tax_source_117_row
     <-> Py.contains "TAX" (gl_source tax_source_117_row) = true
         /\ Py.contains "H11" (gl_source tax_source_117_row) = false).
Proof.
  intros [_ H]. apply H; [split; vm_compute; reflexivity|].
  vm_compute; reflexivity.
Qed.

(** C4, amended. The two copies of [categorize_gl] give different labels
    on a row exactly when none of rules 1 to 5 holds and the upper-cased
    source holds TAX and not H11; there the copy with rule 6 on H11 alone
    gives UNMATCHED and the copy with H11 or TAX gives TAX. *)
Theorem gl_copies_differ_iff :
  forall row : gmap string value,
    (Agentic.categorize_gl row <> LangChain.categorize_gl row
     <-> Contract.silent Contract.gl_rules_1_5 (gl_desc row) (gl_source row) = true
         /\ Py.contains "TAX" (gl_source row) = true
         /\ Py.contains "H11" (gl_source row) = false)
    /\ (Agentic.categorize_gl row <> LangChain.categorize_gl row ->
        Agentic.categorize_gl row = "UNMATCHED"
        /\ LangChain.categorize_gl row = "TAX").
Proof.
  intros row.
  destruct (gl_copies_cases row) as [(Hs & Ht & Hh & Ea & El) | [Hn Eq]].
  - split; [split|]; intros _; try (repeat split; assumption).
    rewrite Ea, El. discriminate.
  - split; [split|]; intros H; try contradiction.
    destruct H as (Hs & Ht & Hh). rewrite Hs, Ht, Hh in Hn. discriminate.
Qed.

Lemma gl_copies_differ_iff_witness :
  Agentic.categorize_gl tax_source_row = "UNMATCHED"
  /\ LangChain.categorize_gl tax_source_row = "TAX".
Proof.
  apply (gl_copies_differ_iff tax_source_row).
  apply (gl_copies_differ_iff tax_source_row).
  repeat split; vm_compute; reflexivity.
Defined.

(** ** The TAX rule and the blank row *)

(** C5. On a bank row where none of rules 1 to 5 holds, [categorize_bank]
    gives TAX exactly when the normalized text holds "TAX " or "TAXPAY" and
    the normalized type is DETAIL DEBITS; the row of scenario 4 is TAX on
    a debit and UNMATCHED on a credit. *)
Theorem categorize_bank_tax :
  (forall (row : gmap string value) (col_text col_type : string),
      Contract.silent Contract.bank_rules_1_5
        (bank_T row col_text) (bank_I row col_type) = true ->
      (categorize_bank row col_text col_type = "TAX"
       <-> (Py.contains "TAX " (bank_T row col_text) = true
            \/ Py.contains "TAXPAY" (bank_T row col_text) = true)
           /\ bank_I row col_type = "DETAIL DEBITS"))
  /\ categorize_bank scenario4_debits "Text" "Data Type" = "TAX"
  /\ categorize_bank scenario4_credits "Text" "Data Type" = "UNMATCHED".
Proof.
  split; [|split; vm_compute; reflexivity].
  intros row col_text col_type Hs.
  rewrite categorize_bank_chain. unfold Contract.bank_rules.
  rewrite first_match_app_silent by exact Hs.
  cbn [Contract.first_match]. unfold Contract.bank_tax.
  destruct (Py.contains "TAX " (bank_T row col_text));
    destruct (Py.contains "TAXPAY" (bank_T row col_text));
    destruct (String.eqb_spec (bank_I row col_type) "DETAIL DEBITS");
    cbn; intuition congruence.
Qed.

Lemma categorize_bank_tax_witness :
  categorize_bank scenario4_debits "Text" "Data Type" = "TAX"
  <-> (Py.contains "TAX " (bank_T scenario4_debits "Text") = true
       \/ Py.contains "TAXPAY" (bank_T scenario4_debits "Text") = true)
      /\ bank_I scenario4_debits "Data Type" = "DETAIL DEBITS".
Proof.
  apply (proj1 categorize_bank_tax scenario4_debits "Text" "Data Type").
  vm_compute; reflexivity.
Defined.

(** C10. A bank row whose text and type cells are both absent or not text
    normalizes to two empty texts, on which no rule of the chain holds,
    and is labeled UNMATCHED. *)
Theorem categorize_bank_blank :
  forall (row : gmap string value) (col_text col_type : string),
    no_text row col_text -> no_text row col_type ->
    bank_T row col_text = EmptyString
    /\ bank_I row col_type = EmptyString
    /\ Contract.silent Contract.bank_rules EmptyString EmptyString = true
    /\ categorize_bank row col_text col_type = "UNMATCHED".
Proof.
  intros row col_text col_type Ht Hi.
  assert (blank : forall col, no_text row col ->
            normalize_text (row_get row col (VStr EmptyString)) = EmptyString).
  { intros col H. unfold no_text, row_get in *.
    destruct (row !! col) as [v|]; [|reflexivity].
    destruct v; [discriminate | reflexivity ..]. }
  assert (ET : bank_T row col_text = EmptyString) by (apply blank, Ht).
  assert (EI : bank_I row col_type = EmptyString) by (apply blank, Hi).
  split; [exact ET|]. split; [exact EI|]. split; [reflexivity|].
  rewrite categorize_bank_chain, ET, EI. reflexivity.
Qed.

Lemma categorize_bank_blank_witness :
  bank_T blank_row "Text" = EmptyString
  /\ bank_I blank_row "Data Type" = EmptyString
  /\ Contract.silent Contract.bank_rules EmptyString EmptyString = true
  /\ categorize_bank blank_row "Text" "Data Type" = "UNMATCHED".
Proof.
  apply (categorize_bank_blank blank_row "Text" "Data Type").
  - vm_compute; reflexivity.
  - vm_compute; exact I.
Defined.


(** ** Grouping and the summary *)

Lemma str_lt_trans a b c : str_lt a b -> str_lt b c -> str_lt a c.
Proof.
  unfold str_lt. intros H1 H2.
  apply OrderedTypeEx.String_as_OT.cmp_lt.
  apply OrderedTypeEx.String_as_OT.lt_trans with b;
    now apply OrderedTypeEx.String_as_OT.cmp_lt.
Qed.

Lemma str_lt_irrefl a : ~ str_lt a a.
Proof.
  unfold str_lt. intros H.
  assert (E : String.compare a a = Eq)
    by now apply OrderedTypeEx.String_as_OT.cmp_eq.
  congruence.
Qed.

Lemma str_gt_lt a b : String.compare a b = Gt -> str_lt b a.
Proof.
  unfold str_lt. intros H. rewrite String.compare_antisym, H. reflexivity.
Qed.

Lemma sorted_keys_NoDup (l : list string) : StronglySorted str_lt l -> List.NoDup l.
Proof.
  induction 1 as [|k l _ IH Hk]; constructor; [|exact IH].
  intros Hin. rewrite List.Forall_forall in Hk.
  exact (str_lt_irrefl k (Hk k Hin)).
Qed.

Lemma eqb_existsb k (l : list string) : existsb (String.eqb k) l = true <-> In k l.
Proof.
  rewrite existsb_exists. split.
  - intros (x & Hx & E). apply String.eqb_eq in E. now subst.
  - intros H. exists k. split; [exact H | apply String.eqb_refl].
Qed.

Section AggregationFacts.

Context {A : Type}.
Variables (zero : A) (add : A -> A -> A) (amount_of : value -> A).


Lemma group_add_keys k a acc k' :
  In k' (map fst (group_add zero add k a acc)) <-> k' = k \/ In k' (map fst acc).
Proof.
  induction acc as [|[k0 s] acc IH]; cbn.
  - intuition congruence.
  - destruct (String.compare k k0) eqn:E; cbn.
    + apply OrderedTypeEx.String_as_OT.cmp_eq in E. subst k0. intuition congruence.
    + intuition congruence.
    + rewrite IH. intuition congruence.
Qed.

Lemma group_add_sorted k a acc :
  StronglySorted str_lt (map fst acc) ->
  StronglySorted str_lt (map fst (group_add zero add k a acc)).
Proof.
  induction acc as [|[k0 s] acc IH]; cbn; intros H.
  - repeat constructor.
  - inversion H as [|? ? Hs Hall]; subst.
    destruct (String.compare k k0) eqn:E; cbn.
    + exact H.
    + constructor; [exact H|]. constructor; [exact E|].
      eapply List.Forall_impl; [|exact Hall]. intros x Hx.
      now apply str_lt_trans with k0.
    + constructor; [now apply IH|].
      rewrite List.Forall_forall in *. intros x Hx.
      apply group_add_keys in Hx as [->|Hx]; [now apply str_gt_lt | now apply Hall].
Qed.

Local Abbreviation step col :=
  (fun (acc : list (string * A)) (r : gmap string value) =>
     match remark r with
     | Some k => group_add zero add k (amount_of (row_get r col VNaN)) acc
     | None => acc
     end).

Lemma fold_step_keys col rs acc k :
  In k (map fst (fold_left (step col) rs acc))
  <-> In k (map fst acc) \/ In (Some k) (map remark rs).
Proof.
  revert acc. induction rs as [|r rs IH]; intros acc; cbn [fold_left map In].
  - tauto.
  - rewrite IH. destruct (remark r) as [k0|].
    + rewrite group_add_keys. intuition congruence.
    + intuition congruence.
Qed.

Lemma fold_step_sorted col rs acc :
  StronglySorted str_lt (map fst acc) ->
  StronglySorted str_lt (map fst (fold_left (step col) rs acc)).
Proof.
  revert acc. induction rs as [|r rs IH]; intros acc H; cbn [fold_left]; [exact H|].
  apply IH. destruct (remark r); [now apply group_add_sorted | exact H].
Qed.

(** The keys of a grouped series are the labels of the table. *)
Lemma groupby_sum_keys col df k :
  In k (map fst (groupby_sum zero add amount_of col df)) <-> In (Some k) (map remark (rows df)).
Proof.
  unfold groupby_sum.
  rewrite (fold_step_keys col (rows df) [] k). cbn. tauto.
Qed.

Lemma groupby_sum_NoDup col df : List.NoDup (map fst (groupby_sum zero add amount_of col df)).
Proof.
  apply sorted_keys_NoDup.
  apply (fold_step_sorted col (rows df) []). constructor.
Qed.

End AggregationFacts.

Section JoinFacts.

Context {A : Type}.
Variable zero : A.

Lemma series_get_absent k (s : list (string * A)) :
  ~ In k (map fst s) -> series_get k s = None.
Proof using Type.
  induction s as [|[k0 a] s IH]; cbn; [reflexivity|]. intros H.
  destruct (String.eqb_spec k k0) as [->|_]; [tauto|]. apply IH. tauto.
Qed.

Lemma in_index_iff k (s : list (string * A)) : in_index k s = true <-> In k (map fst s).
Proof. apply eqb_existsb. Qed.

Lemma concat_fillna_categories gs bs :
  map Category (concat_fillna zero gs bs)
  = (map fst gs ++ List.filter (fun k => negb (in_index k gs)) (map fst bs))%list.
Proof.
  unfold concat_fillna.
  rewrite map_map. cbn [Category]. apply map_id.
Qed.

Lemma concat_fillna_In gs bs c :
  In c (map Category (concat_fillna zero gs bs)) <-> In c (map fst gs) \/ In c (map fst bs).
Proof.
  rewrite concat_fillna_categories, in_app_iff, filter_In.
  destruct (in_index c gs) eqn:E.
  - apply in_index_iff in E. cbn. intuition congruence.
  - cbn. intuition.
Qed.

Lemma concat_fillna_NoDup gs bs :
  List.NoDup (map fst gs) -> List.NoDup (map fst bs) -> List.NoDup (map Category (concat_fillna zero gs bs)).
Proof.
  intros Hg Hb. rewrite concat_fillna_categories.
  apply List.NoDup_app; [exact Hg | now apply List.NoDup_filter |].
  intros k Hk Hk'. apply filter_In in Hk' as [_ Hk'].
  apply in_index_iff in Hk. rewrite Hk in Hk'. discriminate.
Qed.

Lemma concat_fillna_zero gs bs r :
  In r (concat_fillna zero gs bs) ->
  (~ In (Category r) (map fst gs) -> GL r = zero)
  /\ (~ In (Category r) (map fst bs) -> Bank_Statement r = zero).
Proof.
  unfold concat_fillna. rewrite in_map_iff.
  intros (k & <- & _). cbn. split; intros H; now rewrite series_get_absent.
Qed.

End JoinFacts.

(** ** The run of the script *)

Lemma remark_assign f df :
  map remark (rows (assign_remark f df)) = map (fun r => Some (f r)) (rows df).
Proof.
  unfold assign_remark. cbn [rows]. rewrite map_map. apply map_ext.
  intros r. unfold remark. now rewrite lookup_insert_eq.
Qed.

Lemma contains_empty k : Py.contains k EmptyString = true -> k = EmptyString.
Proof. destruct k; [reflexivity | discriminate]. Qed.

(** A column that [find_col] returns for one of the three keys has a name
    that is not empty, so that [not col] is false for it. *)
Lemma find_col_truthy columns key c :
  Py.lower (Py.remove_spaces key) <> EmptyString ->
  find_col columns key = Some c -> truthy (Some c) = Some c.
Proof.
  intros Hk. induction columns as [|c0 columns IH]; [discriminate|].
  cbn [find_col py_str].
  destruct (Py.contains _ (Py.lower (Py.remove_spaces c0))) eqn:E; [|exact IH].
  intros [= <-]. destruct c0; [|reflexivity].
  apply contains_empty in E. contradiction.
Qed.

Lemma truthy_Some o c : truthy o = Some c -> o = Some c.
Proof. destruct o as [[|a s]|]; [discriminate | now intros [= <-] | discriminate]. Qed.

Section ProcessFacts.

Context {A : Type}.
Variables (zero : A) (add : A -> A -> A) (amount_of : value -> A).
Variable categorize_gl : gmap string value -> string.
Variable error_text : string.

Local Abbreviation run := (process zero add amount_of categorize_gl error_text).

(** A run with an unresolved column stops on the error, the GL table
    labeled and the bank table as loaded. *)
Lemma process_missing gl_df bank_df :
  find_col (columns bank_df) "Text" = None
  \/ find_col (columns bank_df) "Data Type" = None
  \/ find_col (columns bank_df) "Revsd amt" = None ->
  run gl_df bank_df
  = Stopped (assign_remark categorize_gl gl_df) bank_df
      (String.append error_text (Py.str_list (columns bank_df))).
Proof.
  intros H. unfold process.
  destruct H as [E | [E | E]]; rewrite E; cbn [truthy];
    repeat match goal with
           | |- context [match truthy ?c with _ => _ end] => destruct (truthy c)
           end; reflexivity.
Qed.

(** A run that completes has resolved the three columns, labeled both
    tables and joined the two grouped sums. *)
Lemma process_completed gl_df bank_df gl' bank' summary :
  run gl_df bank_df = Completed gl' bank' summary ->
  exists col_text col_type col_revsd_amt,
    find_col (columns bank_df) "Text" = Some col_text
    /\ find_col (columns bank_df) "Data Type" = Some col_type
    /\ find_col (columns bank_df) "Revsd amt" = Some col_revsd_amt
    /\ gl' = assign_remark categorize_gl gl_df
    /\ bank' = assign_remark (fun r => categorize_bank r col_text col_type) bank_df
    /\ summary = concat_fillna zero
                   (groupby_sum zero add amount_of "Foreign Amount" gl')
                   (groupby_sum zero add amount_of col_revsd_amt bank').
Proof.
  unfold process. intros H.
  destruct (truthy (find_col (columns bank_df) "Text")) as [ct|] eqn:Et;
    [|discriminate].
  destruct (truthy (find_col (columns bank_df) "Data Type")) as [cty|] eqn:Ey;
    [|discriminate].
  destruct (truthy (find_col (columns bank_df) "Revsd amt")) as [ca|] eqn:Ea;
    [|discriminate].
  destruct (existsb _ _); [|discriminate].
  injection H as <- <- <-. exists ct, cty, ca.
  repeat split; try reflexivity; now apply truthy_Some.
Qed.

(** A run with the three columns resolved goes on to label the bank rows:
    it completes, or fails on a GL table without its amount column. *)
Lemma process_resolved gl_df bank_df col_text col_type col_revsd_amt :
  find_col (columns bank_df) "Text" = Some col_text ->
  find_col (columns bank_df) "Data Type" = Some col_type ->
  find_col (columns bank_df) "Revsd amt" = Some col_revsd_amt ->
  let gl' := assign_remark categorize_gl gl_df in
  let bank' := assign_remark (fun r => categorize_bank r col_text col_type) bank_df in
  run gl_df bank_df
  = if existsb (String.eqb "Foreign Amount") (columns gl')
    then Completed gl' bank'
           (concat_fillna zero
              (groupby_sum zero add amount_of "Foreign Amount" gl')
              (groupby_sum zero add amount_of col_revsd_amt bank'))
    else Raised "KeyError".
Proof.
  intros Et Ey Ea. unfold process. rewrite Et, Ey, Ea.
  rewrite (find_col_truthy _ "Text" _ ltac:(now vm_compute) Et).
  rewrite (find_col_truthy _ "Data Type" _ ltac:(now vm_compute) Ey).
  rewrite (find_col_truthy _ "Revsd amt" _ ltac:(now vm_compute) Ea).
  reflexivity.
Qed.

(** The labels of the two tables of a completed run are the results of the
    classifiers on the rows as loaded. *)
Lemma process_labels gl_df bank_df gl' bank' summary :
  run gl_df bank_df = Completed gl' bank' summary ->
  map remark (rows gl') = map (fun r => Some (categorize_gl r)) (rows gl_df)
  /\ exists col_text col_type,
      find_col (columns bank_df) "Text" = Some col_text
      /\ find_col (columns bank_df) "Data Type" = Some col_type
      /\ map remark (rows bank')
         = map (fun r => Some (categorize_bank r col_text col_type)) (rows bank_df).
Proof.
  intros H. apply process_completed in H as (ct & cty & ca & Et & Ey & _ & -> & -> & _).
  split; [apply remark_assign|]. exists ct, cty. repeat split; try assumption.
  apply remark_assign.
Qed.

Lemma process_summary gl_df bank_df gl' bank' summary :
  run gl_df bank_df = Completed gl' bank' summary ->
  List.NoDup (map Category summary)
  /\ (forall c,
         In c (map Category summary)
         <-> In (Some c) (map remark (rows gl')) \/ In (Some c) (map remark (rows bank')))
  /\ (forall r,
         In r summary ->
         (~ In (Some (Category r)) (map remark (rows gl')) -> GL r = zero)
         /\ (~ In (Some (Category r)) (map remark (rows bank')) ->
             Bank_Statement r = zero)).
Proof.
  intros H. apply process_completed in H as (ct & cty & ca & _ & _ & _ & _ & _ & ->).
  split; [|split].
  - apply concat_fillna_NoDup; apply groupby_sum_NoDup.
  - intros c. rewrite concat_fillna_In, !groupby_sum_keys. reflexivity.
  - intros r Hr. apply concat_fillna_zero in Hr as [Hg Hb].
    rewrite !groupby_sum_keys in *. split; assumption.
Qed.

End ProcessFacts.

(** C6. When a run of either script produces the summary table, the table
    has one row for each label found in the labeled GL table or in the
    labeled bank table, no label twice and no other label, and a label
    found on one side only has total 0 on the other side. *)
Theorem summary_one_row_per_label :
  forall (A : Type) (zero : A) (add : A -> A -> A) (amount_of : value -> A)
         (gl_df bank_df gl' bank' : table) (summary : list (summary_row A)),
    Agentic.process zero add amount_of gl_df bank_df = Completed gl' bank' summary
    \/ LangChain.process zero add amount_of gl_df bank_df = Completed gl' bank' summary ->
    List.NoDup (map Category summary)
    /\ (forall c,
           In c (map Category summary)
           <-> In (Some c) (map remark (rows gl'))
               \/ In (Some c) (map remark (rows bank')))
    /\ (forall r,
           In r summary ->
           (~ In (Some (Category r)) (map remark (rows gl')) -> GL r = zero)
           /\ (~ In (Some (Category r)) (map remark (rows bank')) ->
               Bank_Statement r = zero)).
Proof.
  intros A zero add amount_of gl_df bank_df gl' bank' summary [H | H];
    exact (process_summary _ _ _ _ _ _ _ _ _ _ H).
Qed.

Lemma summary_one_row_per_label_witness :
  List.NoDup (map Category sample_summary)
  /\ (forall c,
         In c (map Category sample_summary)
         <-> In (Some c) (map remark (rows (assign_remark Agentic.categorize_gl sample_gl)))
             \/ In (Some c)
                  (map remark
                     (rows (assign_remark
                              (fun r => categorize_bank r "Text" "Data Type")
                              sample_bank))))
  /\ (forall r,
         In r sample_summary ->
         (~ In (Some (Category r))
             (map remark (rows (assign_remark Agentic.categorize_gl sample_gl))) ->
          GL r = 0%Z)
         /\ (~ In (Some (Category r))
                (map remark
                   (rows (assign_remark
                            (fun r => categorize_bank r "Text" "Data Type")
                            sample_bank))) ->
             Bank_Statement r = 0%Z)).
Proof.
  apply (summary_one_row_per_label Z 0%Z Z.add amount_Z sample_gl sample_bank).
  left. vm_compute; reflexivity.
Defined.

(** C7, as the claim states it, fails: for a bank table without an amount
    column the run stops with an error that lists the columns found and
    does not name the key that was looked for, in either spelling, and the
    GL rows are labeled by then. *)
Lemma missing_column_error_omits_key :
  find_col (columns bank_without_amount) "Revsd amt" = None
  /\ exists gl',
      Agentic.process 0%Z Z.add amount_Z sample_gl bank_without_amount
      = Stopped gl' bank_without_amount
          "Could not detect needed columns in Bank file. Columns found: ['Text', 'Data Type']"
      /\ Py.contains "Revsd amt"
           "Could not detect needed columns in Bank file. Columns found: ['Text', 'Data Type']"
         = false
      /\ Py.contains "revsdamt"
           (Py.lower (Py.remove_spaces
              "Could not detect needed columns in Bank file. Columns found: ['Text', 'Data Type']"))
         = false
      /\ map remark (rows gl') = [Some "117"; Some "AP"; Some "117"].
Proof.
  split; [reflexivity|].
  eexists. split; [vm_compute; reflexivity|].
  repeat split; vm_compute; reflexivity.
Qed.

(** C7, amended. When one of the three bank columns Text, Data Type and
    Revsd amt is not resolved, the run of either script stops on an error
    whose text is the script's fixed sentence followed by the list of all
    the columns found; the bank table is as loaded (its rows are not
    classified), the GL table is labeled, and there is no summary. *)
Theorem missing_column_stops :
  forall (A : Type) (zero : A) (add : A -> A -> A) (amount_of : value -> A)
         (gl_df bank_df : table),
    find_col (columns bank_df) "Text" = None
    \/ find_col (columns bank_df) "Data Type" = None
    \/ find_col (columns bank_df) "Revsd amt" = None ->
    Agentic.process zero add amount_of gl_df bank_df
    = Stopped (assign_remark Agentic.categorize_gl gl_df) bank_df
        (String.append "Could not detect needed columns in Bank file. Columns found: "
           (Py.str_list (columns bank_df)))
    /\ LangChain.process zero add amount_of gl_df bank_df
       = Stopped (assign_remark LangChain.categorize_gl gl_df) bank_df
           (String.append "Bank file missing required columns! Found: "
              (Py.str_list (columns bank_df)))
    /\ summary_of (Agentic.process zero add amount_of gl_df bank_df) = None
    /\ summary_of (LangChain.process zero add amount_of gl_df bank_df) = None.
Proof.
  intros A zero add amount_of gl_df bank_df H.
  unfold Agentic.process, LangChain.process.
  rewrite !process_missing by exact H.
  repeat split; reflexivity.
Qed.

Lemma missing_column_stops_witness :
  Agentic.process 0%Z Z.add amount_Z sample_gl bank_without_amount
  = Stopped (assign_remark Agentic.categorize_gl sample_gl) bank_without_amount
      (String.append "Could not detect needed columns in Bank file. Columns found: "
         (Py.str_list (columns bank_without_amount)))
  /\ LangChain.process 0%Z Z.add amount_Z sample_gl bank_without_amount
     = Stopped (assign_remark LangChain.categorize_gl sample_gl) bank_without_amount
         (String.append "Bank file missing required columns! Found: "
            (Py.str_list (columns bank_without_amount)))
  /\ summary_of (Agentic.process 0%Z Z.add amount_Z sample_gl bank_without_amount) = None
  /\ summary_of (LangChain.process 0%Z Z.add amount_Z sample_gl bank_without_amount) = None.
Proof.
  apply (missing_column_stops Z 0%Z Z.add amount_Z sample_gl bank_without_amount).
  right; right. vm_compute; reflexivity.
Defined.

(** * Further properties *)

(** ** Substrings *)

Lemma append_assoc s t u :
  String.append (String.append s t) u = String.append s (String.append t u).
Proof. induction s as [|c s IH]; [reflexivity|]. rewrite !append_cons. now rewrite IH. Qed.

Lemma append_empty_r s : String.append s EmptyString = s.
Proof. induction s as [|c s IH]; [reflexivity|]. rewrite append_cons. now rewrite IH. Qed.

Lemma startswith_spec s p :
  Py.startswith s p = true <-> exists post, s = String.append p post.
Proof.
  revert s. induction p as [|a p IH]; intros s.
  - split; [intros _; exists s; reflexivity | destruct s; reflexivity].
  - destruct s as [|b s]; cbn [Py.startswith].
    + split; [discriminate | intros [post E]; discriminate E].
    + rewrite andb_true_iff, IH. split.
      * intros [E [post ->]]. apply Ascii.eqb_eq in E. subst b.
        exists post. reflexivity.
      * intros [post E]. rewrite append_cons in E. injection E as -> ->.
        split; [apply Ascii.eqb_refl | eexists; reflexivity].
Qed.

(** [k in s] holds exactly when [s] is some text, then [k], then some text. *)
Lemma contains_spec k s :
  Py.contains k s = true
  <-> exists pre post, s = String.append pre (String.append k post).
Proof.
  induction s as [|c s IH].
  - cbn [Py.contains]. rewrite orb_false_r, startswith_spec. split.
    + intros [post E]. exists EmptyString, post. exact E.
    + intros (pre & post & E). destruct pre as [|a pre]; [|discriminate E].
      exists post. exact E.
  - cbn [Py.contains]. rewrite orb_true_iff, startswith_spec, IH. split.
    + intros [[post E] | (pre & post & E)].
      * exists EmptyString, post. exact E.
      * exists (String c pre), post. rewrite append_cons. now rewrite E.
    + intros (pre & post & E). destruct pre as [|a pre].
      * left. exists post. exact E.
      * right. rewrite append_cons in E. injection E as _ E.
        exists pre, post. exact E.
Qed.

Lemma contains_trans a b s :
  Py.contains a b = true -> Py.contains b s = true -> Py.contains a s = true.
Proof.
  rewrite !contains_spec. intros (p1 & q1 & ->) (p2 & q2 & ->).
  exists (String.append p2 p1), (String.append q1 q2).
  now rewrite !append_assoc.
Qed.

Lemma contains_refl s : Py.contains s s = true.
Proof.
  apply contains_spec. exists EmptyString, EmptyString.
  now rewrite append_nil, append_empty_r.
Qed.

Lemma contains_nil s : Py.contains EmptyString s = true.
Proof. apply contains_spec. exists EmptyString, s. reflexivity. Qed.

(** ** Column lookup *)













Lemma find_col_unfold columns key :
  find_col columns key
  = match columns with
    | [] => None
    | c :: columns' => if col_matches key c then Some c else find_col columns' key
    end.
Proof. destruct columns; reflexivity. Qed.

(** X1. [find_col] returns the first column, in column order, whose name
    holds the key (both compared without spaces and without case), and
    [None] exactly when no column does. *)
Theorem find_col_first_match :
  forall (columns : list string) (key : string),
    match find_col columns key with
    | Some c =>
        exists pre post,
          columns = (pre ++ c :: post)%list
          /\ col_matches key c = true
          /\ forallb (fun c' => negb (col_matches key c')) pre = true
    | None => forallb (fun c' => negb (col_matches key c')) columns = true
    end.
Proof.
  intros columns key. induction columns as [|c columns IH]; [reflexivity|].
  rewrite find_col_unfold. destruct (col_matches key c) eqn:E.
  - exists [], columns. repeat split; [exact E].
  - destruct (find_col columns key) as [c'|].
    + destruct IH as (pre & post & -> & Hc & Hpre).
      exists (c :: pre), post. split; [reflexivity|]. split; [exact Hc|].
      cbn [forallb]. now rewrite E, Hpre.
    + cbn [forallb]. now rewrite E, IH.
Qed.


(** X3. A key that is empty or made of spaces only matches every column:
    the lookup returns the first column of the table, and [None] only for
    a table without columns. *)
Theorem find_col_blank_key :
  forall (columns : list string) (key : string),
    Py.remove_spaces key = EmptyString ->
    find_col columns key = hd_error columns.
Proof.
  intros columns key E. destruct columns as [|c columns]; [reflexivity|].
  cbn [find_col hd_error]. rewrite E. cbn [Py.lower Py.smap].
  now rewrite contains_nil.
Qed.

Lemma find_col_blank_key_witness :
  find_col ["Account"; "Text"] "  " = Some "Account".
Proof. apply (find_col_blank_key ["Account"; "Text"] "  "). reflexivity. Defined.

(** ** How a run ends *)


Section Outcomes.

Context {A : Type}.
Variables (zero : A) (add : A -> A -> A) (amount_of : value -> A).
Variable categorize_gl : gmap string value -> string.
Variable error_text : string.

Local Abbreviation run := (process zero add amount_of categorize_gl error_text).

Lemma unresolved_dec bank_df :
  unresolved bank_df
  \/ exists col_text col_type col_revsd_amt,
      find_col (columns bank_df) "Text" = Some col_text
      /\ find_col (columns bank_df) "Data Type" = Some col_type
      /\ find_col (columns bank_df) "Revsd amt" = Some col_revsd_amt.
Proof.
  unfold unresolved.
  destruct (find_col (columns bank_df) "Text") as [ct|]; [|now left; left].
  destruct (find_col (columns bank_df) "Data Type") as [cty|]; [|now left; right; left].
  destruct (find_col (columns bank_df) "Revsd amt") as [ca|]; [|now left; right; right].
  right. exists ct, cty, ca. repeat split.
Qed.

Lemma process_stopped_iff gl_df bank_df :
  (exists gl' bank' e, run gl_df bank_df = Stopped gl' bank' e) <-> unresolved bank_df.
Proof.
  split.
  - intros (gl' & bank' & e & H).
    destruct (unresolved_dec bank_df) as [U | (ct & cty & ca & Et & Ey & Ea)]; [exact U|].
    rewrite (process_resolved _ _ _ _ _ _ _ _ _ _ Et Ey Ea) in H.
    destruct (existsb _ _); discriminate H.
  - intros U. rewrite (process_missing _ _ _ _ _ _ _ U). eauto.
Qed.


End Outcomes.

(** X4. A run of either script stops on the column error exactly when one
    of the three bank columns is not found: a column that was found never
    fails the script's [not col] test. *)
Theorem process_stops_iff_unresolved :
  forall (A : Type) (zero : A) (add : A -> A -> A) (amount_of : value -> A)
         (gl_df bank_df : table),
    ((exists gl' bank' e,
         Agentic.process zero add amount_of gl_df bank_df = Stopped gl' bank' e)
     <-> unresolved bank_df)
    /\ ((exists gl' bank' e,
            LangChain.process zero add amount_of gl_df bank_df = Stopped gl' bank' e)
        <-> unresolved bank_df).
Proof. intros. split; apply process_stopped_iff. Qed.



(** ** The labeled tables *)

Lemma categorize_gl_labels row :
  In (Agentic.categorize_gl row) Contract.labels
  /\ In (LangChain.categorize_gl row) Contract.labels.
Proof.
  unfold Agentic.categorize_gl, LangChain.categorize_gl, Contract.labels.
  split;
    repeat match goal with
           | |- context [if ?b then _ else _] => destruct b
           end; simpl; tauto.
Qed.

Lemma categorize_bank_labels row col_text col_type :
  In (categorize_bank row col_text col_type) Contract.labels.
Proof.
  unfold categorize_bank, Contract.labels.
  repeat match goal with
         | |- context [if ?b then _ else _] => destruct b
         end; simpl; tauto.
Qed.

(** A labeled row against the row as loaded: the same cells, and one of
    the labels of [which] under [Remark]. *)
Lemma assign_remark_rows f df (which : string -> Prop) :
  (forall r, which (f r)) ->
  Forall2
    (fun r' r =>
       (forall k, k <> "Remark" -> r' !! k = r !! k)
       /\ exists l, which l /\ r' !! "Remark" = Some (VStr l))
    (rows (assign_remark f df)) (rows df).
Proof.
  intros Hf. unfold assign_remark. cbn [rows].
  induction (rows df) as [|r rs IH]; cbn [map]; constructor; [|exact IH].
  split.
  - intros k Hk. now rewrite lookup_insert_ne.
  - exists (f r). split; [apply Hf | apply lookup_insert_eq].
Qed.

(** X6. In a completed run of either script each of the two labeled tables
    has the rows of the table as loaded, in the same order, every cell but
    [Remark] unchanged, and [Remark] holding one of the seven labels; the
    column [Remark] is added at the end unless the table had one. *)
Theorem labeling_keeps_rows :
  forall (A : Type) (zero : A) (add : A -> A -> A) (amount_of : value -> A)
         (gl_df bank_df gl' bank' : table) (summary : list (summary_row A)),
    Agentic.process zero add amount_of gl_df bank_df = Completed gl' bank' summary
    \/ LangChain.process zero add amount_of gl_df bank_df = Completed gl' bank' summary ->
    Forall2
      (fun r' r =>
         (forall k, k <> "Remark" -> r' !! k = r !! k)
         /\ exists l, In l Contract.labels /\ r' !! "Remark" = Some (VStr l))
      (rows gl') (rows gl_df)
    /\ Forall2
         (fun r' r =>
            (forall k, k <> "Remark" -> r' !! k = r !! k)
            /\ exists l, In l Contract.labels /\ r' !! "Remark" = Some (VStr l))
         (rows bank') (rows bank_df)
    /\ columns gl'
       = (if existsb (String.eqb "Remark") (columns gl_df)
          then columns gl_df else columns gl_df ++ ["Remark"])%list
    /\ columns bank'
       = (if existsb (String.eqb "Remark") (columns bank_df)
          then columns bank_df else columns bank_df ++ ["Remark"])%list.
Proof.
  intros A zero add amount_of gl_df bank_df gl' bank' summary [H | H];
    apply process_completed in H as (ct & cty & ca & _ & _ & _ & -> & -> & _);
    repeat split; try reflexivity;
    apply assign_remark_rows; intros r;
    first [apply categorize_gl_labels | apply categorize_bank_labels].
Qed.

Lemma labeling_keeps_rows_witness :
  Forall2
    (fun r' r =>
       (forall k, k <> "Remark" -> r' !! k = r !! k)
       /\ exists l, In l Contract.labels /\ r' !! "Remark" = Some (VStr l))
    (rows (assign_remark Agentic.categorize_gl sample_gl)) (rows sample_gl)
  /\ Forall2
       (fun r' r =>
          (forall k, k <> "Remark" -> r' !! k = r !! k)
          /\ exists l, In l Contract.labels /\ r' !! "Remark" = Some (VStr l))
       (rows (assign_remark (fun r => categorize_bank r "Text" "Data Type") sample_bank))
       (rows sample_bank)
  /\ columns (assign_remark Agentic.categorize_gl sample_gl)
     = (if existsb (String.eqb "Remark") (columns sample_gl)
        then columns sample_gl else columns sample_gl ++ ["Remark"])%list
  /\ columns (assign_remark (fun r => categorize_bank r "Text" "Data Type") sample_bank)
     = (if existsb (String.eqb "Remark") (columns sample_bank)
        then columns sample_bank else columns sample_bank ++ ["Remark"])%list.
Proof.
  apply (labeling_keeps_rows Z 0%Z Z.add amount_Z sample_gl sample_bank
           (assign_remark Agentic.categorize_gl sample_gl)
           (assign_remark (fun r => categorize_bank r "Text" "Data Type") sample_bank)
           sample_summary).
  left. vm_compute; reflexivity.
Defined.

(** ** Totals *)

Section Totals.

Context {A : Type}.
Variables (zero : A) (add : A -> A -> A) (amount_of : value -> A).

Local Abbreviation step col :=
  (fun (acc : list (string * A)) (r : gmap string value) =>
     match remark r with
     | Some k => group_add zero add k (amount_of (row_get r col VNaN)) acc
     | None => acc
     end).

Local Abbreviation has_remark k :=
  (fun r : gmap string value =>
     match remark r with
     | Some s => Py.str_eq s k
     | None => false
     end).

Lemma series_get_below k k0 (acc : list (string * A)) :
  StronglySorted str_lt (k0 :: map fst acc) -> str_lt k k0 -> series_get k acc = None.
Proof using Type.
  intros Hs Hk. apply series_get_absent. intros Hin.
  inversion Hs as [|? ? _ Hall]; subst.
  rewrite List.Forall_forall in Hall.
  exact (str_lt_irrefl k (str_lt_trans _ _ _ Hk (Hall k Hin))).
Qed.

(** Reading a series after one more amount went in. *)
Lemma series_get_group_add k k' a acc :
  StronglySorted str_lt (map fst acc) ->
  series_get k (group_add zero add k' a acc)
  = if String.eqb k k'
    then Some (add (default zero (series_get k acc)) a)
    else series_get k acc.
Proof using Type.
  induction acc as [|[k0 s] acc IH]; intros Hs.
  - cbn. destruct (String.eqb k k'); reflexivity.
  - cbn [group_add]. destruct (String.compare k' k0) eqn:E.
    + apply OrderedTypeEx.String_as_OT.cmp_eq in E. subst k0.
      cbn [series_get]. destruct (String.eqb k k'); reflexivity.
    + cbn [series_get]. destruct (String.eqb_spec k k') as [->|Hne]; [|reflexivity].
      rewrite (series_get_below k' k0 acc Hs E).
      assert (N : String.eqb k' k0 = false).
      { apply String.eqb_neq. intros ->. exact (str_lt_irrefl k0 E). }
      now rewrite N.
    + cbn [series_get map] in *. inversion Hs as [|? ? Hs' _]; subst.
      rewrite (IH Hs').
      destruct (String.eqb_spec k k0) as [->|_]; [|reflexivity].
      assert (N : String.eqb k0 k' = false).
      { apply String.eqb_neq. intros ->.
        exact (str_lt_irrefl k' (str_gt_lt _ _ E)). }
      now rewrite N.
Qed.

Lemma fold_step_get col rs acc k :
  StronglySorted str_lt (map fst acc) ->
  default zero (series_get k (fold_left (step col) rs acc))
  = fold_left add
      (map (fun r => amount_of (row_get r col VNaN)) (List.filter (has_remark k) rs))
      (default zero (series_get k acc)).
Proof using Type.
  revert acc. induction rs as [|r rs IH]; intros acc Hs; [reflexivity|].
  cbn [fold_left List.filter]. destruct (remark r) as [k'|] eqn:Er.
  - rewrite IH by now apply group_add_sorted.
    rewrite series_get_group_add by exact Hs.
    unfold Py.str_eq. rewrite (String.eqb_sym k' k).
    destruct (String.eqb k k'); reflexivity.
  - now apply IH.
Qed.

(** The entry of a grouped sum under a label, or 0 when it has none, is
    the sum of the amounts of the rows with that label, in table order. *)
Lemma groupby_sum_get col df k :
  default zero (series_get k (groupby_sum zero add amount_of col df))
  = column_sum zero add amount_of col (Agentic.detail_view k df).
Proof using Type.
  unfold groupby_sum, column_sum, Agentic.detail_view. cbn [rows].
  rewrite (fold_step_get col (rows df) [] k) by constructor. reflexivity.
Qed.


End Totals.



(** ** Conservation of the totals *)

Section Conservation.

Context {A : Type}.
Variables (zero : A) (add : A -> A -> A) (amount_of : value -> A).

Hypothesis add_assoc : forall a b c, add a (add b c) = add (add a b) c.
Hypothesis add_comm : forall a b, add a b = add b a.
Hypothesis add_zero : forall a, add zero a = a.

Local Abbreviation total l := (fold_right add zero l).

Local Abbreviation has_remark k :=
  (fun r : gmap string value =>
     match remark r with
     | Some s => Py.str_eq s k
     | None => false
     end).

Lemma fold_left_total l : fold_left add l zero = total l.
Proof using add_assoc add_comm.
  apply fold_symmetric; [exact add_assoc | intros y; apply add_comm].
Qed.

Lemma total_zeros (L : list string) : total (map (fun _ => zero) L) = zero.
Proof using add_zero.
  induction L as [|c L IH]; [reflexivity|]. cbn. now rewrite IH, add_zero.
Qed.

(** An amount added under one key of a list of distinct keys is added
    once to the total. *)
Lemma total_once (L : list string) k a (g : string -> A) :
  List.NoDup L -> In k L ->
  total (map (fun c => if String.eqb k c then add a (g c) else g c) L)
  = add a (total (map g L)).
Proof using add_assoc add_comm.
  induction 1 as [|c L Hc Hnd IH]; [contradiction|]. intros [<- | Hin]; cbn.
  - assert (E : map (fun c' => if String.eqb c c' then add a (g c') else g c') L
               = map g L).
    { apply map_ext_in. intros c' Hc'.
      destruct (String.eqb_spec c c') as [->|_]; [contradiction | reflexivity]. }
    now rewrite String.eqb_refl, E, <- add_assoc.
  - rewrite (IH Hin). destruct (String.eqb_spec k c) as [->|_]; [contradiction|].
    rewrite !add_assoc. f_equal. apply add_comm.
Qed.

(** The totals per label add up to the total of the rows, when every row
    has its label among the distinct labels [L]. *)
Lemma total_by_label (L : list string) col rs :
  List.NoDup L ->
  (forall r, In r rs -> exists k, remark r = Some k /\ In k L) ->
  total (map (fun c =>
                total (map (fun r => amount_of (row_get r col VNaN))
                         (List.filter (has_remark c) rs)))
           L)
  = total (map (fun r => amount_of (row_get r col VNaN)) rs).
Proof using add_assoc add_comm add_zero.
  intros Hnd. induction rs as [|r rs IH]; intros Hrs.
  - cbn. apply total_zeros.
  - destruct (Hrs r (or_introl eq_refl)) as (k & Ek & Hk).
    cbn [map fold_right]. rewrite <- IH by (intros r' Hr'; apply Hrs; now right).
    rewrite <- (total_once L k _ _ Hnd Hk).
    f_equal. apply map_ext. intros c. cbn [List.filter]. rewrite Ek.
    unfold Py.str_eq. destruct (String.eqb k c); reflexivity.
Qed.

Lemma labeled_remarks f df (L : list string) :
  (forall k, In (Some k) (map remark (rows (assign_remark f df))) -> In k L) ->
  forall r, In r (rows (assign_remark f df)) -> exists k, remark r = Some k /\ In k L.
Proof using Type.
  intros HL r Hr.
  assert (Hin : In (remark r) (map remark (rows (assign_remark f df))))
    by now apply in_map.
  rewrite remark_assign in Hin. apply in_map_iff in Hin as (r0 & E & _).
  exists (f r0). split; [now symmetry|].
  apply HL. rewrite E. now apply in_map.
Qed.

Variable categorize_gl : gmap string value -> string.
Variable error_text : string.

Lemma process_conserves gl_df bank_df gl' bank' summary :
  process zero add amount_of categorize_gl error_text gl_df bank_df
  = Completed gl' bank' summary ->
  exists col_revsd_amt,
    find_col (columns bank_df) "Revsd amt" = Some col_revsd_amt
    /\ fold_left add (map GL summary) zero
       = column_sum zero add amount_of "Foreign Amount" gl'
    /\ fold_left add (map Bank_Statement summary) zero
       = column_sum zero add amount_of col_revsd_amt bank'.
Proof using add_assoc add_comm add_zero.
  intros H.
  pose proof (process_summary _ _ _ _ _ _ _ _ _ _ H) as (Hnd & Hin & _).
  pose proof H as H'.
  apply process_completed in H' as (ct & cty & ca & _ & _ & Ea & Eg & Eb & Es).
  exists ca. split; [exact Ea|].
  unfold column_sum. rewrite !fold_left_total.
  assert (Hcat : map Category summary
                 = (map fst (groupby_sum zero add amount_of "Foreign Amount" gl')
                    ++ List.filter
                         (fun k => negb (in_index k
                            (groupby_sum zero add amount_of "Foreign Amount" gl')))
                         (map fst (groupby_sum zero add amount_of ca bank')))%list)
    by (rewrite Es; apply concat_fillna_categories).
  assert (HG : map GL summary
               = map (fun c => total (map (fun r => amount_of (row_get r "Foreign Amount" VNaN))
                                        (List.filter (has_remark c) (rows gl'))))
                   (map Category summary)).
  { rewrite Hcat, Es. unfold concat_fillna. rewrite map_map. cbn [GL].
    apply map_ext. intros k. rewrite groupby_sum_get. unfold column_sum.
    now rewrite fold_left_total. }
  assert (HB : map Bank_Statement summary
               = map (fun c => total (map (fun r => amount_of (row_get r ca VNaN))
                                        (List.filter (has_remark c) (rows bank'))))
                   (map Category summary)).
  { rewrite Hcat, Es. unfold concat_fillna. rewrite map_map. cbn [Bank_Statement].
    apply map_ext. intros k. rewrite groupby_sum_get. unfold column_sum.
    now rewrite fold_left_total. }
  rewrite HG, HB. split; apply total_by_label; try exact Hnd.
  - rewrite Eg. apply labeled_remarks. intros k Hk. apply Hin. left. rewrite Eg. exact Hk.
  - rewrite Eb. apply labeled_remarks. intros k Hk. apply Hin. right. rewrite Eb. exact Hk.
Qed.

End Conservation.

(** X8. When the amounts add up in any order (the sum is associative and
    commutative, with 0 neutral), the summary of a completed run of either
    script conserves the totals: its GL column adds up to the total of the
    [Foreign Amount] column of the GL table, and its bank column to the
    total of the found amount column of the bank table. *)
Theorem summary_conserves_totals :
  forall (A : Type) (zero : A) (add : A -> A -> A) (amount_of : value -> A)
         (gl_df bank_df gl' bank' : table) (summary : list (summary_row A)),
    (forall a b c, add a (add b c) = add (add a b) c) ->
    (forall a b, add a b = add b a) ->
    (forall a, add zero a = a) ->
    Agentic.process zero add amount_of gl_df bank_df = Completed gl' bank' summary
    \/ LangChain.process zero add amount_of gl_df bank_df = Completed gl' bank' summary ->
    exists col_revsd_amt,
      find_col (columns bank_df) "Revsd amt" = Some col_revsd_amt
      /\ fold_left add (map GL summary) zero
         = column_sum zero add amount_of "Foreign Amount" gl'
      /\ fold_left add (map Bank_Statement summary) zero
         = column_sum zero add amount_of col_revsd_amt bank'.
Proof.
  intros A zero add amount_of gl_df bank_df gl' bank' summary Ha Hc Hz [H | H];
    exact (process_conserves zero add amount_of Ha Hc Hz _ _ _ _ _ _ _ H).
Qed.

Lemma summary_conserves_totals_witness :
  exists col_revsd_amt,
    find_col (columns sample_bank) "Revsd amt" = Some col_revsd_amt
    /\ fold_left Z.add (map GL sample_summary) 0%Z
       = column_sum 0%Z Z.add amount_Z "Foreign Amount"
           (assign_remark Agentic.categorize_gl sample_gl)
    /\ fold_left Z.add (map Bank_Statement sample_summary) 0%Z
       = column_sum 0%Z Z.add amount_Z col_revsd_amt
           (assign_remark (fun r => categorize_bank r "Text" "Data Type") sample_bank).
Proof.
  apply (summary_conserves_totals Z 0%Z Z.add amount_Z sample_gl sample_bank).
  - intros a b c. lia.
  - intros a b. lia.
  - intros a. lia.
  - left. vm_compute; reflexivity.
Defined.

(** ** What a label tells about the row *)

(** X9. The label of a bank row tells which rule gave it: a row has a
    label exactly when the rule of that label holds on its normalized
    text and type and every rule before it in the chain fails, and it is
    UNMATCHED exactly when all six rules fail. *)
Theorem categorize_bank_label_iff :
  forall (row : gmap string value) (col_text col_type : string),
    (categorize_bank row col_text col_type = "NC Bank"
     <-> Contract.bank_nc (bank_T row col_text) (bank_I row col_type) = true)
    /\ (categorize_bank row col_text col_type = "119"
        <-> Contract.bank_nc (bank_T row col_text) (bank_I row col_type) = false
            /\ Contract.bank_119 (bank_T row col_text) (bank_I row col_type) = true)
    /\ (categorize_bank row col_text col_type = "117"
        <-> Contract.bank_nc (bank_T row col_text) (bank_I row col_type) = false
            /\ Contract.bank_119 (bank_T row col_text) (bank_I row col_type) = false
            /\ Contract.bank_117 (bank_T row col_text) (bank_I row col_type) = true)
    /\ (categorize_bank row col_text col_type = "153"
        <-> Contract.bank_nc (bank_T row col_text) (bank_I row col_type) = false
            /\ Contract.bank_119 (bank_T row col_text) (bank_I row col_type) = false
            /\ Contract.bank_117 (bank_T row col_text) (bank_I row col_type) = false
            /\ Contract.bank_153 (bank_T row col_text) (bank_I row col_type) = true)
    /\ (categorize_bank row col_text col_type = "AP"
        <-> Contract.silent (firstn 4 Contract.bank_rules)
              (bank_T row col_text) (bank_I row col_type) = true
            /\ Contract.bank_ap (bank_T row col_text) (bank_I row col_type) = true)
    /\ (categorize_bank row col_text col_type = "TAX"
        <-> Contract.silent Contract.bank_rules_1_5
              (bank_T row col_text) (bank_I row col_type) = true
            /\ Contract.bank_tax (bank_T row col_text) (bank_I row col_type) = true)
    /\ (categorize_bank row col_text col_type = "UNMATCHED"
        <-> Contract.silent Contract.bank_rules
              (bank_T row col_text) (bank_I row col_type) = true).
Proof.
  intros row col_text col_type. rewrite categorize_bank_chain.
  generalize (bank_T row col_text) (bank_I row col_type). intros T I.
  cbn [Contract.first_match Contract.bank_rules Contract.bank_rules_1_5 app
       Contract.silent forallb firstn fst].
  destruct (Contract.bank_nc T I), (Contract.bank_119 T I), (Contract.bank_117 T I),
    (Contract.bank_153 T I), (Contract.bank_ap T I), (Contract.bank_tax T I);
    cbn; repeat split; intros; try discriminate; try reflexivity;
    repeat match goal with
           | H : _ /\ _ |- _ => destruct H
           end; try discriminate.
Qed.


(** ** Keywords that never decide *)

Lemma contains_longer (k k' T : string) :
  Py.contains k k' = true -> Py.contains k' T = true -> Py.contains k T = true.
Proof. apply contains_trans. Qed.

(** X11. Two keywords of [categorize_bank] never decide a label: a text
    that holds [CO ID:3351637714] holds [3351637714], so that the NC Bank
    rule is the test of the three other keywords, and a text that holds
    [JPMORGAN CHASE BANK] holds [JPMORGAN CHASE], so that the 119 rule is
    the test of its first eight keywords. *)
Theorem redundant_keywords :
  forall T : string,
    forallb (fun k => Py.contains k T) nc_keywords
    = forallb (fun k => Py.contains k T) ["INDN:SETT-BATCH"; "CO ID:3351637714"; "CCD"]
    /\ existsb (fun k => Py.contains k T) keywords_119
       = existsb (fun k => Py.contains k T) (removelast keywords_119).
Proof.
  intros T. split.
  - cbn [nc_keywords forallb].
    destruct (Py.contains "CO ID:3351637714" T) eqn:E.
    + rewrite (contains_longer "3351637714" "CO ID:3351637714" T eq_refl E).
      reflexivity.
    + now rewrite !andb_false_r, ?andb_false_l.
  - cbn [keywords_119 removelast existsb].
    destruct (Py.contains "JPMORGAN CHASE BANK" T) eqn:E.
    + rewrite (contains_longer "JPMORGAN CHASE" "JPMORGAN CHASE BANK" T eq_refl E).
      now rewrite !orb_true_r.
    + now rewrite !orb_false_r.
Qed.

(** ** The part of the type cell *)

(** X12. The type cell of a bank row matters for AP and TAX only: a row
    labeled NC Bank, 119, 117 or 153 keeps its label whatever its type
    cell holds, a row labeled TAX has the normalized type DETAIL DEBITS,
    and a row labeled AP has the normalized type DETAIL DEBITS or DETAIL
    CREDITS unless its text starts with WIRE TYPE. *)
Theorem type_cell_role :
  forall (row row' : gmap string value) (col_text col_type col_text' col_type' : string),
    (bank_T row' col_text' = bank_T row col_text ->
     In (categorize_bank row col_text col_type) ["NC Bank"; "119"; "117"; "153"] ->
     categorize_bank row' col_text' col_type' = categorize_bank row col_text col_type)
    /\ (categorize_bank row col_text col_type = "TAX" ->
        bank_I row col_type = "DETAIL DEBITS")
    /\ (categorize_bank row col_text col_type = "AP" ->
        bank_I row col_type = "DETAIL DEBITS"
        \/ bank_I row col_type = "DETAIL CREDITS"
        \/ Py.startswith (bank_T row col_text) "WIRE TYPE" = true).
Proof.
  intros row row' col_text col_type col_text' col_type'.
  rewrite !categorize_bank_chain.
  cbn [Contract.first_match Contract.bank_rules Contract.bank_rules_1_5 app].
  split; [|split].
  - intros ->. unfold Contract.bank_nc, Contract.bank_119, Contract.bank_117,
      Contract.bank_153.
    destruct (forallb _ _); [reflexivity|].
    destruct (existsb _ _); [reflexivity|].
    destruct (_ || _); [reflexivity|].
    destruct (Py.contains "BNF:LSC COMMUNICATIONS" _); [reflexivity|].
    intros H. exfalso. revert H.
    destruct (Contract.bank_ap _ _); [|destruct (Contract.bank_tax _ _)];
      cbn; intuition discriminate.
  - generalize (bank_T row col_text) (bank_I row col_type). intros T I.
    unfold Contract.bank_tax.
    destruct (Contract.bank_nc T I); [discriminate|].
    destruct (Contract.bank_119 T I); [discriminate|].
    destruct (Contract.bank_117 T I); [discriminate|].
    destruct (Contract.bank_153 T I); [discriminate|].
    destruct (Contract.bank_ap T I); [discriminate|].
    destruct (String.eqb_spec I "DETAIL DEBITS") as [E|_]; [intros _; exact E|].
    rewrite andb_false_r. discriminate.
  - generalize (bank_T row col_text) (bank_I row col_type). intros T I.
    unfold Contract.bank_ap.
    destruct (Contract.bank_nc T I); [discriminate|].
    destruct (Contract.bank_119 T I); [discriminate|].
    destruct (Contract.bank_117 T I); [discriminate|].
    destruct (Contract.bank_153 T I); [discriminate|].
    destruct (String.eqb_spec I "DETAIL DEBITS") as [E|_];
      [intros _; left; exact E|].
    destruct (String.eqb_spec I "DETAIL CREDITS") as [E|_];
      [intros _; right; left; exact E|].
    destruct (Py.startswith T "WIRE TYPE"); [intros _; right; right; reflexivity|].
    cbn. rewrite andb_false_r.
    destruct (Contract.bank_tax _ _); discriminate.
Qed.

(** ** Blank and pre-normalized cells *)

Lemma split_whitespace_only s : Py.split s = [] <-> whitespace_only s = true.
Proof.
  induction s as [|c s IH]; [split; reflexivity|].
  cbn [Py.split whitespace_only]. destruct (Py.isspace c); [exact IH|].
  cbn. split; [|discriminate].
  destruct s as [|d s']; [discriminate|].
  destruct (Py.isspace d); [discriminate|].
  destruct (Py.split (String d s')); discriminate.
Qed.

Lemma join_empty ws : Forall word ws -> Py.join_space ws = EmptyString -> ws = [].
Proof.
  intros Hws E. destruct ws as [|w ws]; [reflexivity|].
  inversion Hws; subst.
  destruct (join_head_word w ws) as (c & r & E' & _); [assumption|]. congruence.
Qed.

Lemma normalize_words_empty s :
  Contract.normalize s = EmptyString <-> whitespace_only s = true.
Proof.
  unfold Contract.normalize, Py.upper.
  rewrite (split_smap Py.upper_char s isspace_upper_char), <- split_whitespace_only.
  split.
  - intros E. apply join_empty in E.
    + destruct (Py.split s); [reflexivity | discriminate E].
    + apply (Forall_word_upper (Py.split s)), split_words.
  - intros ->. reflexivity.
Qed.

(** X13. [normalize_text] gives the empty text exactly for a value that is
    not text and for a text of whitespace only. *)
Theorem normalize_text_empty_iff :
  forall v : value,
    normalize_text v = EmptyString
    <-> match v with
        | VStr s => whitespace_only s = true
        | _ => True
        end.
Proof.
  intros [s| | | | |]; try (split; reflexivity).
  rewrite normalize_text_words. apply normalize_words_empty.
Qed.

Lemma blank_cell_T row col :
  blank_cell row col -> normalize_text (row_get row col (VStr EmptyString)) = EmptyString.
Proof.
  unfold blank_cell, row_get. destruct (row !! col) as [v|]; [|reflexivity].
  destruct v as [s| | | | |]; try reflexivity.
  intros H. change (normalize_text (VStr s) = EmptyString).
  rewrite normalize_text_words. now apply normalize_words_empty.
Qed.

(** X14. A bank row whose text cell is absent, not text or whitespace only
    is UNMATCHED whatever its type cell holds: every rule of the chain
    needs some text. *)
Theorem categorize_bank_blank_text :
  forall (row : gmap string value) (col_text col_type : string),
    blank_cell row col_text ->
    categorize_bank row col_text col_type = "UNMATCHED".
Proof.
  intros row col_text col_type H.
  rewrite categorize_bank_chain. unfold bank_T. rewrite (blank_cell_T _ _ H).
  generalize (bank_I row col_type). intros I.
  cbn. unfold Contract.bank_ap. cbn. now rewrite !andb_false_r.
Qed.

Lemma categorize_bank_blank_text_witness :
  categorize_bank spaces_row "Text" "Data Type" = "UNMATCHED".
Proof.
  apply (categorize_bank_blank_text spaces_row "Text" "Data Type").
  vm_compute; reflexivity.
Defined.

Lemma normalize_words_twice s :
  Contract.normalize (Contract.normalize s) = Contract.normalize s.
Proof.
  unfold Contract.normalize, Py.upper.
  rewrite smap_join by reflexivity.
  rewrite split_join.
  - rewrite (split_smap Py.upper_char s isspace_upper_char), map_map.
    f_equal. apply map_ext. intros w. apply upper_idem.
  - apply Forall_word_upper, split_words.
Qed.

Lemma normalize_text_twice v : normalize_text (VStr (normalize_text v)) = normalize_text v.
Proof.
  rewrite normalize_text_words. destruct v as [s| | | | |]; try reflexivity.
  rewrite normalize_text_words. apply normalize_words_twice.
Qed.

(** X15. Normalizing the text and type cells of a bank row ahead of time
    does not change its label: [categorize_bank] sees the two cells
    through [normalize_text] only. *)
Theorem categorize_bank_prenormalized :
  forall (row : gmap string value) (col_text col_type : string),
    categorize_bank
      (<[col_text := VStr (bank_T row col_text)]>
         (<[col_type := VStr (bank_I row col_type)]> row))
      col_text col_type
    = categorize_bank row col_text col_type.
Proof.
  intros row col_text col_type. rewrite !categorize_bank_chain. f_equal.
  - unfold bank_T at 1, row_get. rewrite lookup_insert_eq. apply normalize_text_twice.
  - unfold bank_I at 1, row_get.
    destruct (decide (col_text = col_type)) as [->|Hne].
    + rewrite lookup_insert_eq. apply normalize_text_twice.
    + rewrite lookup_insert_ne, lookup_insert_eq by exact Hne.
      apply normalize_text_twice.
Qed.

(** ** GL rows: null cells and case *)

(** X16. A GL row whose source and description are each absent, [None], a
    missing value or the empty text is UNMATCHED in both copies: the
    renderings [None] and [nan] that [str] gives hold no keyword. *)
Theorem categorize_gl_null :
  forall row : gmap string value,
    null_cell row "Source" -> null_cell row "Journal Line Description" ->
    Agentic.categorize_gl row = "UNMATCHED"
    /\ LangChain.categorize_gl row = "UNMATCHED".
Proof.
  intros row Hs Hd.
  unfold Agentic.categorize_gl, LangChain.categorize_gl, null_cell, row_get in *.
  destruct (row !! "Source") as [[[|]| | | | |]|]; try contradiction;
    destruct (row !! "Journal Line Description") as [[[|]| | | | |]|];
    try contradiction; split; vm_compute; reflexivity.
Qed.

Lemma categorize_gl_null_witness :
  Agentic.categorize_gl null_gl_row = "UNMATCHED"
  /\ LangChain.categorize_gl null_gl_row = "UNMATCHED".
Proof. apply (categorize_gl_null null_gl_row); vm_compute; exact I. Defined.




(** ** The detail views and the query by remark *)

Lemma detail_view_In c df r :
  In r (rows (Agentic.detail_view c df)) <-> In r (rows df) /\ remark r = Some c.
Proof.
  unfold Agentic.detail_view. cbn [rows]. rewrite filter_In.
  destruct (remark r) as [s|]; unfold Py.str_eq.
  - destruct (String.eqb_spec s c) as [->|Hne]; intuition congruence.
  - intuition discriminate.
Qed.

(** X18. In a completed run of the script with the detail views, the
    options of the select box sort every row: a row of a labeled table is
    in the detail view of exactly one option, its label, and every option
    has a row to show in the GL view or in the bank view. *)
Theorem detail_views_partition :
  forall (A : Type) (zero : A) (add : A -> A -> A) (amount_of : value -> A)
         (gl_df bank_df gl' bank' : table) (summary : list (summary_row A)),
    Agentic.process zero add amount_of gl_df bank_df = Completed gl' bank' summary ->
    (forall df r,
        df = gl' \/ df = bank' -> In r (rows df) ->
        exists c,
          In c (Agentic.detail_options summary)
          /\ In r (rows (Agentic.detail_view c df))
          /\ forall c', In r (rows (Agentic.detail_view c' df)) -> c' = c)
    /\ (forall c,
           In c (Agentic.detail_options summary) ->
           rows (Agentic.detail_view c gl') <> []
           \/ rows (Agentic.detail_view c bank') <> []).
Proof.
  intros A zero add amount_of gl_df bank_df gl' bank' summary H.
  pose proof (process_summary _ _ _ _ _ _ _ _ _ _ H) as (_ & Hin & _).
  pose proof (process_labels _ _ _ _ _ _ _ _ _ _ H) as (Eg & ct & cty & _ & _ & Eb).
  unfold Agentic.detail_options. split.
  - intros df r Hdf Hr.
    assert (Hrem : exists c, remark r = Some c /\ In c (map Category summary)).
    { assert (Hm : In (remark r) (map remark (rows df))) by now apply in_map.
      destruct Hdf as [-> | ->].
      - pose proof Hm as Hm'. rewrite Eg in Hm'.
        apply in_map_iff in Hm' as (r0 & E & _). exists (Agentic.categorize_gl r0).
        split; [now symmetry|]. apply Hin. left. now rewrite E.
      - pose proof Hm as Hm'. rewrite Eb in Hm'.
        apply in_map_iff in Hm' as (r0 & E & _). exists (categorize_bank r0 ct cty).
        split; [now symmetry|]. apply Hin. right. now rewrite E. }
    destruct Hrem as (c & Ec & Hc). exists c. split; [exact Hc|]. split.
    + apply detail_view_In. now split.
    + intros c' Hc'. apply detail_view_In in Hc' as [_ Ec']. congruence.
  - intros c Hc. apply Hin in Hc as [Hc | Hc];
      apply in_map_iff in Hc as (r & Er & Hr); [left | right];
      intros E;
      assert (Hv : In r (rows (Agentic.detail_view c _)))
        by (apply detail_view_In; split; eassumption);
      rewrite E in Hv; exact Hv.
Qed.

Lemma detail_views_partition_witness :
  (forall df r,
      df = assign_remark Agentic.categorize_gl sample_gl
      \/ df = assign_remark (fun r => categorize_bank r "Text" "Data Type") sample_bank ->
      In r (rows df) ->
      exists c,
        In c (Agentic.detail_options sample_summary)
        /\ In r (rows (Agentic.detail_view c df))
        /\ forall c', In r (rows (Agentic.detail_view c' df)) -> c' = c)
  /\ (forall c,
         In c (Agentic.detail_options sample_summary) ->
         rows (Agentic.detail_view c (assign_remark Agentic.categorize_gl sample_gl)) <> []
         \/ rows (Agentic.detail_view c
                    (assign_remark (fun r => categorize_bank r "Text" "Data Type")
                       sample_bank)) <> []).
Proof.
  apply (detail_views_partition Z 0%Z Z.add amount_Z sample_gl sample_bank).
  vm_compute; reflexivity.
Defined.









(** ** Texts that normalize alike, and the labels in use *)

Lemma split_upper s : Py.split (Py.upper s) = map Py.upper (Py.split s).
Proof. exact (split_smap Py.upper_char s isspace_upper_char). Qed.

(** X21. Two texts have the same normalized text exactly when they have
    the same words once in upper case: [normalize_text] forgets the case
    and the whitespace around and between the words, and nothing else. *)
Theorem normalize_text_same_words :
  forall s s' : string,
    normalize_text (VStr s) = normalize_text (VStr s')
    <-> map Py.upper (Py.split s) = map Py.upper (Py.split s').
Proof.
  intros s s'. rewrite !normalize_text_words. unfold Contract.normalize.
  rewrite !split_upper.
  split; [|now intros ->].
  intros E. apply (f_equal Py.split) in E.
  rewrite !split_join in E; [exact E | ..];
    apply (Forall_word_upper (Py.split _)), split_words.
Qed.

(** X22. None of the seven labels is idle: each one is the label of some
    GL row in both copies of [categorize_gl] and of some bank row. *)
Theorem labels_all_in_use :
  Forall
    (fun l =>
       (exists row, Agentic.categorize_gl row = l)
       /\ (exists row, LangChain.categorize_gl row = l)
       /\ (exists row, categorize_bank row "Text" "Data Type" = l))
    Contract.labels.
Proof.
  unfold Contract.labels. repeat constructor.
  - exists (gl_row (VStr "x") (VStr "inv 117")). vm_compute; reflexivity.
  - exists (gl_row (VStr "x") (VStr "inv 117")). vm_compute; reflexivity.
  - exists (bank_row (VStr "trsf to 9") (VStr "x")). vm_compute; reflexivity.
  - exists (gl_row (VStr "x") (VStr "inv 119")). vm_compute; reflexivity.
  - exists (gl_row (VStr "x") (VStr "inv 119")). vm_compute; reflexivity.
  - exists (bank_row (VStr "Wells Fargo  sweep") (VStr "x")). vm_compute; reflexivity.
  - exists (gl_row (VStr "x") (VStr "inv 153")). vm_compute; reflexivity.
  - exists (gl_row (VStr "x") (VStr "inv 153")). vm_compute; reflexivity.
  - exists (bank_row (VStr "bnf:lsc communications") (VStr "x")). vm_compute; reflexivity.
  - exists (gl_row (VStr "x") (VStr "nc bank fee")). vm_compute; reflexivity.
  - exists (gl_row (VStr "x") (VStr "nc bank fee")). vm_compute; reflexivity.
  - exists (bank_row (VStr "indn:sett-batch co id:3351637714 ccd") (VStr "x")).
    vm_compute; reflexivity.
  - exists (gl_row (VStr "ap") (VStr "x")). vm_compute; reflexivity.
  - exists (gl_row (VStr "ap") (VStr "x")). vm_compute; reflexivity.
  - exists (bank_row (VStr "wire type inv") (VStr "x")). vm_compute; reflexivity.
  - exists (gl_row (VStr "h11") (VStr "x")). vm_compute; reflexivity.
  - exists (gl_row (VStr "h11") (VStr "x")). vm_compute; reflexivity.
  - exists (bank_row (VStr "taxpay") (VStr "detail debits")). vm_compute; reflexivity.
  - exists (gl_row (VStr "x") (VStr "x")). vm_compute; reflexivity.
  - exists (gl_row (VStr "x") (VStr "x")). vm_compute; reflexivity.
  - exists (bank_row (VStr "x") (VStr "x")). vm_compute; reflexivity.
Qed.
